(** * cost_uploader: the normalisation, merge and upload pipeline

    A shallow embedding of [src/cost_uploader.py].

    - A pandas DataFrame is a list of rows; each kind of frame the script
      builds has its own record type whose fields carry the column names the
      script uses.  A cell that pandas holds as NaN/None is [None].
    - Costs are exact rationals kept in reduced form ([Qred]); the rounding
      error of float64 arithmetic is outside the model.
    - The script talks to the outside through [requests], [pandas] parsers
      and [gspread]; what those calls answer during one run is the record
      [env].  The script's own effects (printing, calling the worksheet,
      raising, [sys.exit]) are a state-and-exception monad [proc]. *)

From Stdlib Require Import List String Ascii ZArith QArith Qround Bool Lia.
From Stdlib Require Import Permutation DecimalString Sorted Qabs Lqa.
Import ListNotations.
Local Open Scope string_scope.
Local Open Scope Z_scope.

Set Implicit Arguments.

(** ** Python dictionaries used as replacement tables *)

(** A dict literal, in the order it is written. Keys are unique, so the first
    match is the only match. *)
Definition dict := list (string * string).

Fixpoint dict_get (d : dict) (k : string) : option string :=
  match d with
  | [] => None
  | (k', v) :: d' => if String.eqb k' k then Some v else dict_get d' k
  end.

Definition dict_keys (d : dict) : list string := map fst d.

(** [Series.replace(d)] on one cell: a value equal to a key becomes that
    key's value, every other value (NaN included) stays as it is. *)
Definition replace_value (d : dict) (v : string) : string :=
  match dict_get d v with
  | Some v' => v'
  | None => v
  end.

Definition replace (d : dict) (c : option string) : option string :=
  option_map (replace_value d) c.

(** ** Device taxonomy *)

(** The dict of lines 143-150 ([__criteo_merge_and_format_dataframes]). *)
Definition criteo_device_map : dict :=
  [ ("Desktop", "desktop");
    ("Tablet", "tablet");
    ("CTV", "unknown");
    ("Other", "unknown");
    ("Smartphone", "mobile");
    ("Unknown", "unknown") ].

(** The dict of lines 305-314 ([__kelkoo_format_and_group_dataframe]). *)
Definition kelkoo_device_map : dict :=
  [ ("Computer", "desktop");
    ("Desktop", "desktop");
    ("Mobile", "mobile");
    ("Tablet", "tablet");
    ("CTV", "unknown");
    ("Other", "unknown");
    ("Smartphone", "mobile");
    ("Unknown", "unknown") ].

Definition canonical_devices : list string :=
  [ "desktop"; "tablet"; "mobile"; "unknown" ].

(** ** Numeric columns *)

(** A cell that is not NaN. *)
Definition notna {A : Type} (c : option A) : bool :=
  match c with Some _ => true | None => false end.

(** [a.fillna(b)], row by row: [b]'s cell where [a]'s is NaN. *)
Definition fillna {A : Type} (a b : option A) : option A :=
  match a with Some _ => a | None => b end.

(** pandas ['sum'] over a group: NaN cells are skipped, an empty or all-NaN
    group sums to 0. *)
Definition sum_Z (l : list (option Z)) : Z :=
  fold_right (fun c acc => match c with Some z => z + acc | None => acc end) 0 l.

Definition sum_Q (l : list (option Q)) : Q :=
  fold_right
    (fun c acc => match c with Some q => Qred (q + acc) | None => acc end)
    (0 # 1)%Q l.

(** pandas ['max'] over a group of text cells: the greatest non-NaN value in
    Python's string order, NaN when the group has none. *)
Definition str_max (a b : string) : string :=
  if String.leb a b then b else a.

Definition max_str (l : list (option string)) : option string :=
  fold_right
    (fun c acc =>
       match c, acc with
       | Some s, Some t => Some (str_max s t)
       | Some s, None => Some s
       | None, _ => acc
       end)
    None l.

(** Round to the nearest integer, ties to even, as numpy's [rint]. *)
Definition rint (q : Q) : Z :=
  let f := Qfloor q in
  match Qcompare (q - inject_Z f) (1 # 2) with
  | Lt => f
  | Gt => f + 1
  | Eq => if Z.even f then f else f + 1
  end.

(** [.round(decimals=2)] on one cost cell. *)
Definition round2 (q : Q) : Q := Qred (Qmake (rint (q * (100 # 1))) 100).

(** ** The frames *)

(** The row of a report as [pd.read_csv(..., sep=';')] gives it. *)
Module Csv.
Record row := {
  AdvertiserId : option Z;
  Advertiser : option string;
  Day : option string;
  Device : option string;
  Displays : option Z;
  Clicks : option Z;
  AdvertiserCost : option Q;
  Currency : option string }.
End Csv.

(** The USD frame after [rename(columns=columns_usd)]. *)
Module Usd.
Record row := {
  Advertiser : option string;
  Day : option string;
  Device : option string;
  Displays : option Z;
  Clicks : option Z;
  costusd : option Q;
  billingcurrency : option string }.
End Usd.

(** The EUR frame after [rename(columns=columns_eur)]; the EUR and GBP
    reports are requested with the cost metric only, so they carry no
    Displays and Clicks columns. *)
Module Eur.
Record row := {
  Advertiser : option string;
  Day : option string;
  Device : option string;
  billingcost_eur : option Q;
  billingcurrency_eur : option string }.
End Eur.

(** The GBP frame after [rename(columns=columns_gbp)]. *)
Module Gbp.
Record row := {
  Advertiser : option string;
  Day : option string;
  Device : option string;
  billingcost_gbp : option Q;
  billingcurrency_gbp : option string }.
End Gbp.

(** [df_merged] after the two outer merges (line 121). *)
Module Merged.
Record row := {
  Advertiser : option string;
  Day : option string;
  Device : option string;
  Displays : option Z;
  Clicks : option Z;
  costusd : option Q;
  billingcurrency : option string;
  billingcost_eur : option Q;
  billingcurrency_eur : option string;
  billingcost_gbp : option Q;
  billingcurrency_gbp : option string }.
End Merged.

(** [df_merged] after lines 126-150: the columns the grouping reads. *)
Module Formatted.
Record row := {
  date : option string;
  device : option string;
  impressions : option Z;
  clicks : option Z;
  billingcost : option Q;
  billingcurrency : option string;
  costusd : option Q;
  engine : option string;
  majormarket : option string;
  channel : option string }.
End Formatted.

(** A value of the date column as [pd.read_json] may give it: text, a
    number, a timestamp or a missing value.  The last two are carried with
    the text Python's [str] renders them as. *)
Inductive pyval :=
| PyStr (s : string)
| PyInt (z : Z)
| PyTimestamp (text : string)
| PyNull (text : string).

Definition is_str (v : pyval) : bool :=
  match v with PyStr _ => true | _ => false end.

(** The row of the statistics payload as [pd.read_json] gives it; [D] is the
    type of the date column. *)
Module Json.
Record row (D : Type) := {
  date : D;
  catId : option Z;
  catName : option string;
  deviceType : option string;
  currency : option string;
  clicks : option Z;
  cost : option Q;
  sales : option Z;
  orderValue : option Q;
  trackedLeads : option Z;
  costTrackedLeads : option Q }.
End Json.

(** [kelkoo_df] after the rename, the drop and the device replacement
    (lines 290-314). *)
Module Kelkoo.
Record row := {
  date : string;
  device : option string;
  billingcurrency : option string;
  clicks : option Z;
  billingcost : option Q }.
End Kelkoo.

(** The canonical row both normalizers end with, columns in the order of
    lines 163-172. *)
Record CostRow := {
  date : string;
  device : string;
  impressions : Z;
  clicks : Z;
  billingcost : Q;
  billingcurrency : option string;
  costusd : Q;
  engine : string;
  majormarket : string;
  channel : string }.

Definition frame := list CostRow.

(** [df_merged] between the two merges (line 119). *)
Module UsdEur.
Record row := {
  Advertiser : option string;
  Day : option string;
  Device : option string;
  Displays : option Z;
  Clicks : option Z;
  costusd : option Q;
  billingcurrency : option string;
  billingcost_eur : option Q;
  billingcurrency_eur : option string }.
End UsdEur.

(** ** [pd.merge(left, right, on=..., how='outer')] *)

(** Every left row is paired with each right row of the same key, or kept
    alone when there is none; the right rows whose key no left row has
    follow, alone.  Missing key cells match each other, as in pandas.
    pandas additionally orders the result by key; the order of [df_merged]
    is not observable afterwards, since the grouping orders its output by
    group key and sums and maxima do not depend on the order of a group. *)
Section OuterMerge.
Variables L R K M : Type.
Variable K_eq_dec : forall x y : K, {x = y} + {x <> y}.
Variable lkey : L -> K.
Variable rkey : R -> K.
Variable combine : K -> option L -> option R -> M.

Definition same_key (a b : K) : bool :=
  if K_eq_dec a b then true else false.

Definition merge_left_row (right : list R) (x : L) : list M :=
  match filter (fun y => same_key (lkey x) (rkey y)) right with
  | [] => [combine (lkey x) (Some x) None]
  | ys => map (fun y => combine (lkey x) (Some x) (Some y)) ys
  end.

Definition merge_outer (left : list L) (right : list R) : list M :=
  flat_map (merge_left_row right) left
  ++ map (fun y => combine (rkey y) None (Some y))
       (filter (fun y => negb (existsb (fun x => same_key (lkey x) (rkey y)) left))
          right).
End OuterMerge.

(** ** [df.groupby(keys).agg(...)] *)

(** Rows with a missing key cell are left out (pandas' default
    [dropna=True]); there is one output row per distinct key, in increasing
    key order (the default [sort=True]); [agg] builds the output row of a key
    from the rows of its group, kept in their input order. *)
Section GroupBy.
Variables Row K Out : Type.
Variable K_eq_dec : forall x y : K, {x = y} + {x <> y}.
Variable K_leb : K -> K -> bool.
Variable key : Row -> option K.
Variable agg : K -> list Row -> Out.

Definition has_key (k : K) (r : Row) : bool :=
  match key r with
  | Some k' => if K_eq_dec k k' then true else false
  | None => false
  end.

Definition keyed (r : Row) : bool := notna (key r).

Definition keys_of (rows : list Row) : list K :=
  flat_map (fun r => match key r with Some k => [k] | None => [] end) rows.

Fixpoint insert_key (k : K) (ks : list K) : list K :=
  match ks with
  | [] => [k]
  | h :: t => if K_leb k h then k :: ks else h :: insert_key k t
  end.

Definition sort_keys (ks : list K) : list K := fold_right insert_key [] ks.

Definition group_keys (rows : list Row) : list K :=
  sort_keys (nodup K_eq_dec (keys_of rows)).

Definition group (rows : list Row) (k : K) : list Row :=
  filter (has_key k) rows.

Definition groupby (rows : list Row) : list Out :=
  map (fun k => agg k (group rows k)) (group_keys rows).
End GroupBy.

(** Keys and their orders.  A key of several columns is a right-nested pair,
    compared column by column from the left. *)
Definition lex_leb {A B : Type} (cmp : A -> A -> comparison)
  (leb : B -> B -> bool) (x y : A * B) : bool :=
  match cmp (fst x) (fst y) with
  | Lt => true
  | Gt => false
  | Eq => leb (snd x) (snd y)
  end.

(** (Advertiser, Day, Device) *)
Definition join_key : Type := option string * (option string * option string).

Definition join_key_dec : forall x y : join_key, {x = y} + {x <> y}.
Proof. repeat decide equality. Defined.

(** (date, device, majormarket, channel) *)
Definition criteo_key : Type := string * (string * (string * string)).

Definition criteo_key_dec : forall x y : criteo_key, {x = y} + {x <> y}.
Proof. repeat decide equality. Defined.

Definition criteo_key_leb : criteo_key -> criteo_key -> bool :=
  lex_leb String.compare (lex_leb String.compare (lex_leb String.compare String.leb)).

(** (date, device) *)
Definition kelkoo_key : Type := string * string.

Definition kelkoo_key_dec : forall x y : kelkoo_key, {x = y} + {x <> y}.
Proof. repeat decide equality. Defined.

Definition kelkoo_key_leb : kelkoo_key -> kelkoo_key -> bool :=
  lex_leb String.compare String.leb.

(** ** Settings *)

(** The module [settings] is configuration outside the script; the fields
    are the ones the modelled code reads. *)
Record Settings := {
  CRITEO_GBP_IDS : list Z;
  CRITEO_EUR_IDS : list Z;
  CRITEO_MARKET_REPLACEMENTS : dict }.

(** ** Source A: the Criteo normalizer *)

(** The three [rename(columns=...)] of [criteo_build_final_dataframe]; the
    AdvertiserId column is already dropped. *)
Definition columns_usd (r : Csv.row) : Usd.row :=
  {| Usd.Advertiser := Csv.Advertiser r;
     Usd.Day := Csv.Day r;
     Usd.Device := Csv.Device r;
     Usd.Displays := Csv.Displays r;
     Usd.Clicks := Csv.Clicks r;
     Usd.costusd := Csv.AdvertiserCost r;
     Usd.billingcurrency := Csv.Currency r |}.

Definition columns_eur (r : Csv.row) : Eur.row :=
  {| Eur.Advertiser := Csv.Advertiser r;
     Eur.Day := Csv.Day r;
     Eur.Device := Csv.Device r;
     Eur.billingcost_eur := Csv.AdvertiserCost r;
     Eur.billingcurrency_eur := Csv.Currency r |}.

Definition columns_gbp (r : Csv.row) : Gbp.row :=
  {| Gbp.Advertiser := Csv.Advertiser r;
     Gbp.Day := Csv.Day r;
     Gbp.Device := Csv.Device r;
     Gbp.billingcost_gbp := Csv.AdvertiserCost r;
     Gbp.billingcurrency_gbp := Csv.Currency r |}.

(** The frame part of [__criteo_create_dataframes], after [pd.read_csv]:
    drop AdvertiserId, keep the rows whose Device is set, rename. *)
Definition criteo_create_frame {T : Type} (cols : Csv.row -> T)
  (parsed : list Csv.row) : list T :=
  map cols (filter (fun r => notna (Csv.Device r)) parsed).

(** The column [c] of a row that the join may not have found. *)
Definition column {A B : Type} (x : option A) (c : A -> option B) : option B :=
  match x with Some r => c r | None => None end.

Definition usd_key (r : Usd.row) : join_key :=
  (Usd.Advertiser r, (Usd.Day r, Usd.Device r)).
Definition eur_key (r : Eur.row) : join_key :=
  (Eur.Advertiser r, (Eur.Day r, Eur.Device r)).
Definition usd_eur_key (r : UsdEur.row) : join_key :=
  (UsdEur.Advertiser r, (UsdEur.Day r, UsdEur.Device r)).
Definition gbp_key (r : Gbp.row) : join_key :=
  (Gbp.Advertiser r, (Gbp.Day r, Gbp.Device r)).

Definition join_usd_eur (k : join_key) (u : option Usd.row)
  (e : option Eur.row) : UsdEur.row :=
  {| UsdEur.Advertiser := fst k;
     UsdEur.Day := fst (snd k);
     UsdEur.Device := snd (snd k);
     UsdEur.Displays := column u Usd.Displays;
     UsdEur.Clicks := column u Usd.Clicks;
     UsdEur.costusd := column u Usd.costusd;
     UsdEur.billingcurrency := column u Usd.billingcurrency;
     UsdEur.billingcost_eur := column e Eur.billingcost_eur;
     UsdEur.billingcurrency_eur := column e Eur.billingcurrency_eur |}.

Definition join_gbp (k : join_key) (ue : option UsdEur.row)
  (g : option Gbp.row) : Merged.row :=
  {| Merged.Advertiser := fst k;
     Merged.Day := fst (snd k);
     Merged.Device := snd (snd k);
     Merged.Displays := column ue UsdEur.Displays;
     Merged.Clicks := column ue UsdEur.Clicks;
     Merged.costusd := column ue UsdEur.costusd;
     Merged.billingcurrency := column ue UsdEur.billingcurrency;
     Merged.billingcost_eur := column ue UsdEur.billingcost_eur;
     Merged.billingcurrency_eur := column ue UsdEur.billingcurrency_eur;
     Merged.billingcost_gbp := column g Gbp.billingcost_gbp;
     Merged.billingcurrency_gbp := column g Gbp.billingcurrency_gbp |}.

(** Lines 118-121. *)
Definition criteo_merge (df_usd : list Usd.row) (df_eur : list Eur.row)
  (df_gbp : list Gbp.row) : list Merged.row :=
  merge_outer join_key_dec usd_eur_key gbp_key join_gbp
    (merge_outer join_key_dec usd_key eur_key join_usd_eur df_usd df_eur)
    df_gbp.

(** Line 123: [df_merged['Advertiser'].dropna().empty]. *)
Definition advertiser_empty (df_merged : list Merged.row) : bool :=
  match filter (fun r => notna (Merged.Advertiser r)) df_merged with
  | [] => true
  | _ => false
  end.

(** Lines 126-129. *)
Definition coalesce_billingcurrency (m : Merged.row) : option string :=
  fillna (fillna (Merged.billingcurrency_gbp m) (Merged.billingcurrency_eur m))
    (Merged.billingcurrency m).

Definition coalesce_billingcost (m : Merged.row) : option Q :=
  fillna (fillna (Merged.billingcost_gbp m) (Merged.billingcost_eur m))
    (Merged.costusd m).

(** Lines 126-150 on one row: the two coalesced columns, the two constant
    columns, the renames, the market and the device replacements. *)
Definition criteo_format_row (s : Settings) (m : Merged.row) : Formatted.row :=
  {| Formatted.date := Merged.Day m;
     Formatted.device := replace criteo_device_map (Merged.Device m);
     Formatted.impressions := Merged.Displays m;
     Formatted.clicks := Merged.Clicks m;
     Formatted.billingcost := coalesce_billingcost m;
     Formatted.billingcurrency := coalesce_billingcurrency m;
     Formatted.costusd := Merged.costusd m;
     Formatted.engine := Some "Criteo";
     Formatted.majormarket :=
       replace (CRITEO_MARKET_REPLACEMENTS s) (Merged.Advertiser m);
     Formatted.channel := Some "Retargeting" |}.

(** The group key of lines 151-154; absent when one of the four cells is. *)
Definition formatted_key (r : Formatted.row) : option criteo_key :=
  match Formatted.date r, Formatted.device r,
        Formatted.majormarket r, Formatted.channel r with
  | Some d, Some dev, Some m, Some c => Some (d, (dev, (m, c)))
  | _, _, _, _ => None
  end.

(** The text a ['max'] cell holds; a group is never empty and its engine
    column is never missing, so the empty text is not reached there. *)
Definition text_of (c : option string) : string :=
  match c with Some s => s | None => "" end.

(** The [agg] of lines 156-161 and the column order of lines 163-172. *)
Definition criteo_agg (k : criteo_key) (g : list Formatted.row) : CostRow :=
  {| date := fst k;
     device := fst (snd k);
     impressions := sum_Z (map Formatted.impressions g);
     clicks := sum_Z (map Formatted.clicks g);
     billingcost := sum_Q (map Formatted.billingcost g);
     billingcurrency := max_str (map Formatted.billingcurrency g);
     costusd := sum_Q (map Formatted.costusd g);
     engine := text_of (max_str (map Formatted.engine g));
     majormarket := fst (snd (snd k));
     channel := snd (snd (snd k)) |}.

(** [.round(decimals=2)]: the two cost columns; the two count columns hold
    whole numbers, which rounding keeps. *)
Definition round_costs (r : CostRow) : CostRow :=
  {| date := date r;
     device := device r;
     impressions := impressions r;
     clicks := clicks r;
     billingcost := round2 (billingcost r);
     billingcurrency := billingcurrency r;
     costusd := round2 (costusd r);
     engine := engine r;
     majormarket := majormarket r;
     channel := channel r |}.

(** [df_merged] as the grouping of line 151 reads it. *)
Definition criteo_formatted (s : Settings) (df_usd : list Usd.row)
  (df_eur : list Eur.row) (df_gbp : list Gbp.row) : list Formatted.row :=
  map (criteo_format_row s) (criteo_merge df_usd df_eur df_gbp).

Definition criteo_groupby (rows : list Formatted.row) : frame :=
  groupby criteo_key_dec criteo_key_leb formatted_key criteo_agg rows.

(** [__criteo_merge_and_format_dataframes]; [None] is Python's [None]. *)
Definition criteo_merge_and_format_dataframes (s : Settings)
  (df_usd : list Usd.row) (df_eur : list Eur.row) (df_gbp : list Gbp.row)
  : option frame :=
  if advertiser_empty (criteo_merge df_usd df_eur df_gbp) then None
  else Some (map round_costs
               (criteo_groupby (criteo_formatted s df_usd df_eur df_gbp))).

(** ** Source B: the Kelkoo normalizer *)

(** Python's [str] on a date value. *)
Definition py_str (v : pyval) : string :=
  match v with
  | PyStr s => s
  | PyInt z => NilZero.string_of_int (Z.to_int z)
  | PyTimestamp text => text
  | PyNull text => text
  end.

(** Line 273: [kelkoo_df['date'].astype(str)]. *)
Definition astype_str (r : Json.row pyval) : Json.row string :=
  {| Json.date := py_str (Json.date r);
     Json.catId := Json.catId r;
     Json.catName := Json.catName r;
     Json.deviceType := Json.deviceType r;
     Json.currency := Json.currency r;
     Json.clicks := Json.clicks r;
     Json.cost := Json.cost r;
     Json.sales := Json.sales r;
     Json.orderValue := Json.orderValue r;
     Json.trackedLeads := Json.trackedLeads r;
     Json.costTrackedLeads := Json.costTrackedLeads r |}.

(** Lines 290-314 on one row: rename, drop, device replacement. *)
Definition kelkoo_format_row (r : Json.row string) : Kelkoo.row :=
  {| Kelkoo.date := Json.date r;
     Kelkoo.device := replace kelkoo_device_map (Json.deviceType r);
     Kelkoo.billingcurrency := Json.currency r;
     Kelkoo.clicks := Json.clicks r;
     Kelkoo.billingcost := Json.cost r |}.

Definition kelkoo_row_key (r : Kelkoo.row) : option kelkoo_key :=
  match Kelkoo.device r with
  | Some dev => Some (Kelkoo.date r, dev)
  | None => None
  end.

(** [df_grouped] after [reset_index] (line 318). *)
Module Grouped.
Record row := {
  date : string;
  device : string;
  billingcurrency : option string;
  clicks : Z;
  billingcost : Q }.
End Grouped.

(** The [agg] of line 317. *)
Definition kelkoo_agg (k : kelkoo_key) (g : list Kelkoo.row) : Grouped.row :=
  {| Grouped.date := fst k;
     Grouped.device := snd k;
     Grouped.billingcurrency := max_str (map Kelkoo.billingcurrency g);
     Grouped.clicks := sum_Z (map Kelkoo.clicks g);
     Grouped.billingcost := sum_Q (map Kelkoo.billingcost g) |}.

Definition kelkoo_groupby (rows : list Kelkoo.row) : list Grouped.row :=
  groupby kelkoo_key_dec kelkoo_key_leb kelkoo_row_key kelkoo_agg rows.

(** Lines 320-326 on one row: the constant impressions, the USD cost from
    the unrounded billing cost, the rounding, the three constant columns. *)
Definition kelkoo_finish_row (usd_rate : Q) (g : Grouped.row) : CostRow :=
  {| date := Grouped.date g;
     device := Grouped.device g;
     impressions := 0;
     clicks := Grouped.clicks g;
     billingcost := round2 (Grouped.billingcost g);
     billingcurrency := Grouped.billingcurrency g;
     costusd := round2 (Qred (Grouped.billingcost g * usd_rate));
     engine := "Kelkoo";
     majormarket := "UK";
     channel := "Affiliate" |}.

(** The frame part of [__kelkoo_format_and_group_dataframe], from the frame
    [__kelkoo_create_dataframe] returned. *)
Definition kelkoo_format_and_group (usd_rate : Q)
  (kelkoo_df : list (Json.row string)) : frame :=
  map (kelkoo_finish_row usd_rate)
    (kelkoo_groupby (map kelkoo_format_row kelkoo_df)).

(** ** The process *)

(** What ends a Python function early: [sys.exit(code)], which raises
    [SystemExit], or any exception of class [Exception], named by its
    class. *)
Inductive exn :=
| SystemExit (code : option Z)
| Exception (name : string).

Definition result (A : Type) : Type := (exn + A)%type.

(** A cell of the spreadsheet's value block. *)
Inductive cell :=
| CellStr (s : string)
| CellInt (z : Z)
| CellNum (q : Q)
| CellNaN.

(** The two worksheet calls the script makes. *)
Inductive gsheet_call :=
| BatchClear (ranges : list string)
| Update (values : list (list cell)) (value_input_option : string).

(** What the run has printed and which worksheet calls it has issued, oldest
    first. *)
Record world := {
  stdout : list string;
  gsheet_calls : list gsheet_call }.

Definition proc (A : Type) : Type := world -> result A * world.

Definition ret {A : Type} (a : A) : proc A := fun w => (inr a, w).

Definition bind {A B : Type} (m : proc A) (f : A -> proc B) : proc B :=
  fun w =>
    match m w with
    | (inr a, w') => f a w'
    | (inl e, w') => (inl e, w')
    end.

Notation "x <- m ;; k" := (bind m (fun x => k))
  (at level 61, m at next level, right associativity).
Notation "m ;;; k" := (bind m (fun _ => k))
  (at level 61, right associativity).

Definition raise {A : Type} (e : exn) : proc A := fun w => (inl e, w).

(** A library call that answers or raises. *)
Definition lift {A : Type} (r : result A) : proc A := fun w => (r, w).

Definition print (line : string) : proc unit :=
  fun w => (inr tt, {| stdout := stdout w ++ [line];
                       gsheet_calls := gsheet_calls w |}).

(** [sys.exit()] without an argument. *)
Definition sys_exit {A : Type} : proc A := raise (SystemExit None).

(** [try: body except Exception as e: handler e]; [SystemExit] is not an
    [Exception] and passes through. *)
Definition try_except {A : Type} (body : proc A) (handler : exn -> proc A)
  : proc A :=
  fun w =>
    match body w with
    | (inl (Exception name), w') => handler (Exception name) w'
    | other => other
    end.

(** A worksheet method: the call is issued, then answers or raises. *)
Definition worksheet_call (c : gsheet_call) (answer : result unit) : proc unit :=
  fun w => (answer, {| stdout := stdout w;
                       gsheet_calls := gsheet_calls w ++ [c] |}).

(** The exit status the interpreter ends with: 0 when the script runs to its
    end, the code of [sys.exit] (0 when it has none), 1 after an uncaught
    exception. *)
Definition exit_status {A : Type} (r : result A) : Z :=
  match r with
  | inr _ => 0
  | inl (SystemExit None) => 0
  | inl (SystemExit (Some code)) => code
  | inl (Exception _) => 1
  end.

(** ** The outside world of one run *)

(** The [payload_edits] of a report request. *)
Record payload_edits := {
  advertiserIds : option (list Z);
  metrics : list string;
  currency : string }.

(** What the services and the parsers answer during the run.  Each field
    stands for the calls named beside it; [inl] is the exception the call
    raises. *)
Record env := {
  settings : Settings;
  (** lines 54-57: the token request, [json.loads] and the token lookup *)
  criteo_token : result string;
  (** lines 101-102: the report request, for the given edits *)
  criteo_report : payload_edits -> result string;
  (** line 107: [pd.read_csv] *)
  read_csv : string -> result (list Csv.row);
  (** lines 234-237: the rate request and the lookup of the USD rate *)
  fixer_rate : result Q;
  (** line 259: the statistics request: status code and body *)
  kelkoo_get : result (Z * string);
  (** line 272: [pd.read_json] *)
  read_json : string -> result (list (Json.row pyval));
  (** lines 28-36: credentials, authorisation, opening the worksheet *)
  gspread_open : result unit;
  (** line 37: what [batch_clear] answers *)
  gspread_batch_clear : result unit;
  (** line 353: what [update] answers *)
  gspread_update : result unit }.

Section Run.
Variable e : env.

(** [prep_sheet]; the worksheet handle is the unit value. *)
Definition prep_sheet : proc unit :=
  lift (gspread_open e) ;;;
  worksheet_call (BatchClear ["A:J"]) (gspread_batch_clear e) ;;;
  ret tt.

(** [__criteo_get_auth] *)
Definition criteo_get_auth : proc string :=
  try_except
    (lift (criteo_token e))
    (fun ex =>
       print "Auto Cost Uploader has failed - Criteo API connection error." ;;;
       raise ex).

(** [__criteo_get_csv]; dimensions, time zone, format and the date window
    of the request are the same for every call of the run. *)
Definition criteo_get_csv (token : string) (edits : payload_edits)
  : proc string :=
  lift (criteo_report e edits).

(** [__criteo_create_dataframes] *)
Definition criteo_create_dataframes {T : Type} (stats : string)
  (cols : Csv.row -> T) : proc (list T) :=
  parsed <- lift (read_csv e stats) ;;
  ret (criteo_create_frame cols parsed).

(** [criteo_build_final_dataframe] *)
Definition criteo_build_final_dataframe : proc (option frame) :=
  token <- criteo_get_auth ;;
  stats_usd <- criteo_get_csv token
    {| advertiserIds := None;
       metrics := ["Displays"; "Clicks"; "AdvertiserCost"];
       currency := "USD" |} ;;
  stats_gbp <- criteo_get_csv token
    {| advertiserIds := Some (CRITEO_GBP_IDS (settings e));
       metrics := ["AdvertiserCost"];
       currency := "GBP" |} ;;
  stats_eur <- criteo_get_csv token
    {| advertiserIds := Some (CRITEO_EUR_IDS (settings e));
       metrics := ["AdvertiserCost"];
       currency := "EUR" |} ;;
  df_usd <- criteo_create_dataframes stats_usd columns_usd ;;
  df_eur <- criteo_create_dataframes stats_eur columns_eur ;;
  df_gbp <- criteo_create_dataframes stats_gbp columns_gbp ;;
  ret (criteo_merge_and_format_dataframes (settings e) df_usd df_eur df_gbp).

(** [__fixer_get_conversion_rate] *)
Definition fixer_get_conversion_rate : proc Q := lift (fixer_rate e).

(** [__kelkoo_get_json] *)
Definition kelkoo_get_json : proc string :=
  response <- lift (kelkoo_get e) ;;
  if negb (Z.eqb (fst response) 200) then
    print "Auto Cost Uploader has failed - Kelkoo API connection error" ;;;
    sys_exit
  else ret (snd response).

(** [__kelkoo_create_dataframe].  A frame parsed from an array of
    records has the keys of its records as columns, so none when the
    array is empty: selecting its date column raises [KeyError]. *)
Definition kelkoo_create_dataframe : proc (option (list (Json.row string))) :=
  kelkoo_json_data <- kelkoo_get_json ;;
  if String.eqb kelkoo_json_data "[]" then ret None
  else
    kelkoo_df <- lift (read_json e kelkoo_json_data) ;;
    match kelkoo_df with
    | [] => raise (Exception "KeyError")
    | _ => ret (Some (map astype_str kelkoo_df))
    end.

(** [__kelkoo_format_and_group_dataframe] *)
Definition kelkoo_format_and_group_dataframe (usd_rate : Q)
  : proc (option frame) :=
  kelkoo_df <- kelkoo_create_dataframe ;;
  match kelkoo_df with
  | None => ret None
  | Some df => ret (Some (kelkoo_format_and_group usd_rate df))
  end.

(** [kelkoo_build_final_dataframe] *)
Definition kelkoo_build_final_dataframe : proc (option frame) :=
  usd_conversion_rate <- fixer_get_conversion_rate ;;
  kelkoo_df <- kelkoo_format_and_group_dataframe usd_conversion_rate ;;
  match kelkoo_df with
  | None => ret None
  | Some df => ret (Some df)
  end.

(** [merge_dataframes]; [pd.concat] puts the rows of its first frame
    before the rows of its second. *)
Definition merge_dataframes (criteo_df kelkoo_df : option frame) : proc frame :=
  match criteo_df, kelkoo_df with
  | None, None =>
      print "Auto Cost Uploader has failed - no data provided." ;;;
      sys_exit
  | None, Some k => ret k
  | Some c, None => ret c
  | Some c, Some k => ret (c ++ k)%list
  end.

(** [merged_dataframe.columns.values.tolist()] *)
Definition columns : list cell :=
  map CellStr
    ["date"; "device"; "impressions"; "clicks"; "billingcost";
     "billingcurrency"; "costusd"; "engine"; "majormarket"; "channel"].

(** One row of [merged_dataframe.values.tolist()]. *)
Definition tolist (r : CostRow) : list cell :=
  [ CellStr (date r); CellStr (device r); CellInt (impressions r);
    CellInt (clicks r); CellNum (billingcost r);
    match billingcurrency r with Some c => CellStr c | None => CellNaN end;
    CellNum (costusd r); CellStr (engine r); CellStr (majormarket r);
    CellStr (channel r) ].

(** [gsheet_upload] *)
Definition gsheet_upload (worksheet : unit) (merged_dataframe : frame)
  : proc unit :=
  worksheet_call
    (Update (columns :: map tolist merged_dataframe) "USER_ENTERED")
    (gspread_update e).

(** [sheet_upload], which the script runs at its last line. *)
Definition sheet_upload : proc unit :=
  criteo_df <- criteo_build_final_dataframe ;;
  kelkoo_df <- kelkoo_build_final_dataframe ;;
  merged_df <- merge_dataframes criteo_df kelkoo_df ;;
  worksheet <- prep_sheet ;;
  gsheet_upload worksheet merged_df ;;;
  print "Finished - check sheet.".

(** The three steps of [sheet_upload] that come before the sheet is
    touched. *)
Definition fetch_and_merge : proc frame :=
  criteo_df <- criteo_build_final_dataframe ;;
  kelkoo_df <- kelkoo_build_final_dataframe ;;
  merge_dataframes criteo_df kelkoo_df.
End Run.

Definition initial_world : world := {| stdout := []; gsheet_calls := [] |}.

(** ** Specification vocabulary *)

Definition total (l : list Z) : Z := fold_right Z.add 0 l.

(** The group key an output row carries. *)
Definition criteo_row_key (o : CostRow) : criteo_key :=
  (date o, (device o, (majormarket o, channel o))).

Definition kelkoo_row_out_key (o : CostRow) : kelkoo_key := (date o, device o).

(** A side of a joined row: absent, or a row of that side's frame with the
    joined row's key. *)
Definition side_of {T K : Type} (frame_ : list T) (tkey : T -> K) (k : K)
  (x : option T) : Prop :=
  match x with
  | Some t => In t frame_ /\ tkey t = k
  | None => True
  end.

Definition merged_key (m : Merged.row) : join_key :=
  (Merged.Advertiser m, (Merged.Day m, Merged.Device m)).

(** The joined row [m] takes its USD, EUR and GBP columns from the rows [u],
    [e] and [g] of the three frames, each absent or of [m]'s key. *)
Definition joined_from (df_usd : list Usd.row) (df_eur : list Eur.row)
  (df_gbp : list Gbp.row) (m : Merged.row)
  (u : option Usd.row) (e : option Eur.row) (g : option Gbp.row) : Prop :=
  side_of df_usd usd_key (merged_key m) u
  /\ side_of df_eur eur_key (merged_key m) e
  /\ side_of df_gbp gbp_key (merged_key m) g
  /\ Merged.Displays m = column u Usd.Displays
  /\ Merged.Clicks m = column u Usd.Clicks
  /\ Merged.costusd m = column u Usd.costusd
  /\ Merged.billingcurrency m = column u Usd.billingcurrency
  /\ Merged.billingcost_eur m = column e Eur.billingcost_eur
  /\ Merged.billingcurrency_eur m = column e Eur.billingcurrency_eur
  /\ Merged.billingcost_gbp m = column g Gbp.billingcost_gbp
  /\ Merged.billingcurrency_gbp m = column g Gbp.billingcurrency_gbp.

(** No worksheet call is issued by [m], whatever it answers. *)
Definition sheet_untouched {A : Type} (m : proc A) : Prop :=
  forall w, gsheet_calls (snd (m w)) = gsheet_calls w.

(** ** Sample inputs *)

Definition no_settings : Settings :=
  {| CRITEO_GBP_IDS := []; CRITEO_EUR_IDS := [];
     CRITEO_MARKET_REPLACEMENTS := [] |}.

(** A market table that sends the advertiser Acme to the market UK. *)
Definition acme_to_uk : Settings :=
  {| CRITEO_GBP_IDS := []; CRITEO_EUR_IDS := [];
     CRITEO_MARKET_REPLACEMENTS := [("Acme", "UK")] |}.

(** The single row of the USD report of the Acme scenario. *)
Definition acme_csv : Csv.row :=
  {| Csv.AdvertiserId := Some 1;
     Csv.Advertiser := Some "Acme";
     Csv.Day := Some "2024-01-01";
     Csv.Device := Some "Desktop";
     Csv.Displays := Some 100;
     Csv.Clicks := Some 5;
     Csv.AdvertiserCost := Some (10 # 1)%Q;
     Csv.Currency := Some "USD" |}.

Definition acme_out : CostRow :=
  {| date := "2024-01-01";
     device := "desktop";
     impressions := 100;
     clicks := 5;
     billingcost := (10 # 1)%Q;
     billingcurrency := Some "USD";
     costusd := (10 # 1)%Q;
     engine := "Criteo";
     majormarket := "Acme";
     channel := "Retargeting" |}.

(** The row of the Acme scenario with the engine written SourceA. *)
Definition acme_claimed : CostRow :=
  {| date := "2024-01-01";
     device := "desktop";
     impressions := 100;
     clicks := 5;
     billingcost := (10 # 1)%Q;
     billingcurrency := Some "USD";
     costusd := (10 # 1)%Q;
     engine := "SourceA";
     majormarket := "Acme";
     channel := "Retargeting" |}.

(** A statistics record whose date the parser gave as a number. *)
Definition numeric_date_json : Json.row pyval :=
  {| Json.date := PyInt 20240101;
     Json.catId := Some 7;
     Json.catName := Some "Shoes";
     Json.deviceType := Some "Computer";
     Json.currency := Some "GBP";
     Json.clicks := Some 3;
     Json.cost := Some (50 # 1)%Q;
     Json.sales := Some 0;
     Json.orderValue := Some (0 # 1)%Q;
     Json.trackedLeads := Some 0;
     Json.costTrackedLeads := Some (0 # 1)%Q |}.

(** What the Kelkoo normalizer makes of [numeric_date_json] at rate 1.27. *)
Definition numeric_date_out : CostRow :=
  {| date := "20240101";
     device := "desktop";
     impressions := 0;
     clicks := 3;
     billingcost := (50 # 1)%Q;
     billingcurrency := Some "GBP";
     costusd := (127 # 2)%Q;
     engine := "Kelkoo";
     majormarket := "UK";
     channel := "Affiliate" |}.

(** Two USD rows that fall into one group (CTV and Other are both unknown)
    and a third, with no advertiser, that falls into none. *)
Definition usd_row (advertiser : option string) (dev : string)
  (displays clicks_ : Z) (cost_ : Q) : Usd.row :=
  {| Usd.Advertiser := advertiser;
     Usd.Day := Some "2024-01-01";
     Usd.Device := Some dev;
     Usd.Displays := Some displays;
     Usd.Clicks := Some clicks_;
     Usd.costusd := Some cost_;
     Usd.billingcurrency := Some "USD" |}.



(** A run in which every service answers: the report body is the currency
    code asked for, the USD report parses to [csv_usd], the other two to no
    row, the statistics request answers [kelkoo] and its body parses to
    [json]. *)
Definition sample_env (kelkoo : result (Z * string))
  (csv_usd : list Csv.row) (json : list (Json.row pyval)) : env :=
  {| settings := no_settings;
     criteo_token := inr "token";
     criteo_report := fun edits => inr (currency edits);
     read_csv := fun stats => inr (if String.eqb stats "USD" then csv_usd else []);
     fixer_rate := inr (127 # 100)%Q;
     kelkoo_get := kelkoo;
     read_json := fun _ => inr json;
     gspread_open := inr tt;
     gspread_batch_clear := inr tt;
     gspread_update := inr tt |}.

Definition env_ok : env :=
  sample_env (inr (200, "[{...}]")) [acme_csv] [numeric_date_json].

(** The statistics endpoint answers with status 500. *)
Definition env_kelkoo_500 : env :=
  sample_env (inr (500, "Internal Server Error")) [acme_csv] [].

(** Neither source has data: empty reports and the empty-array body. *)
Definition env_both_empty : env := sample_env (inr (200, "[]")) [] [].

(** An empty array written with a blank between the brackets. *)
Definition env_blank_array : env := sample_env (inr (200, "[ ]")) [acme_csv] [].

(** A boolean order as a relation. *)
Definition leb_rel {K : Type} (leb : K -> K -> bool) (a b : K) : Prop :=
  leb a b = true.

(** The order of the group keys, as relations. *)
Definition criteo_key_le : criteo_key -> criteo_key -> Prop :=
  leb_rel criteo_key_leb.

Definition kelkoo_key_le : kelkoo_key -> kelkoo_key -> Prop :=
  leb_rel kelkoo_key_leb.

(** Every key cell of a report row is set. *)
Definition complete_key (k : join_key) : Prop :=
  fst k <> None /\ fst (snd k) <> None /\ snd (snd k) <> None.

(** The rows of a frame that may be absent. *)
Definition frame_rows (df : option frame) : frame :=
  match df with Some rows => rows | None => [] end.

(** The four lines the script can print. *)
Definition criteo_failure_line : string :=
  "Auto Cost Uploader has failed - Criteo API connection error.".

Definition kelkoo_failure_line : string :=
  "Auto Cost Uploader has failed - Kelkoo API connection error".

Definition no_data_line : string :=
  "Auto Cost Uploader has failed - no data provided.".

Definition finished_line : string := "Finished - check sheet.".

(** The two worksheet calls of a complete upload of [df]. *)
Definition clear_call : gsheet_call := BatchClear ["A:J"].

Definition update_call (df : frame) : gsheet_call :=
  Update (columns :: map tolist df) "USER_ENTERED".

(** Which failure line goes with which way of ending: the Criteo line with
    an exception, the other two with [sys.exit()]. *)
Definition failure_line_of (ex : exn) (line : string) : Prop :=
  (line = criteo_failure_line /\ exists name, ex = Exception name)
  \/ (line = kelkoo_failure_line /\ ex = SystemExit None)
  \/ (line = no_data_line /\ ex = SystemExit None).

(** What [m] prints: [on_success] when it answers, and nothing or one
    failure line, matching the way it ends, when it does not. *)
Definition prints {A : Type} (on_success : list string) (m : proc A) : Prop :=
  forall w,
    match fst (m w) with
    | inr _ => stdout (snd (m w)) = (stdout w ++ on_success)%list
    | inl ex =>
        stdout (snd (m w)) = stdout w
        \/ exists line, failure_line_of ex line
                        /\ stdout (snd (m w)) = (stdout w ++ [line])%list
    end.

(** Two USD rows with complete keys and one EUR row for the first of them. *)
Definition two_usd : list Usd.row :=
  [ usd_row (Some "Acme") "Desktop" 100 5 (10 # 1)%Q;
    usd_row (Some "Acme") "Tablet" 50 2 (1 # 4)%Q ].

Definition one_eur : list Eur.row :=
  [ {| Eur.Advertiser := Some "Acme";
       Eur.Day := Some "2024-01-01";
       Eur.Device := Some "Desktop";
       Eur.billingcost_eur := Some (9 # 1)%Q;
       Eur.billingcurrency_eur := Some "EUR" |} ].

(** A statistics record, dates already text, with the given device type. *)
Definition json_row (dev : option string) : Json.row string :=
  {| Json.date := "2024-01-01";
     Json.catId := Some 7;
     Json.catName := Some "Shoes";
     Json.deviceType := dev;
     Json.currency := Some "GBP";
     Json.clicks := Some 3;
     Json.cost := Some (50 # 1)%Q;
     Json.sales := Some 0;
     Json.orderValue := Some (0 # 1)%Q;
     Json.trackedLeads := Some 0;
     Json.costTrackedLeads := Some (0 # 1)%Q |}.

(** Source B has no data, Source A has the Acme row. *)
Definition env_kelkoo_no_data : env :=
  sample_env (inr (200, "[]")) [acme_csv] [].

(** The token request raises. *)
Definition env_auth_fails : env :=
  {| settings := no_settings;
     criteo_token := inl (Exception "ConnectionError");
     criteo_report := fun edits => inr (currency edits);
     read_csv := fun _ => inr [];
     fixer_rate := inr (127 # 100)%Q;
     kelkoo_get := inr (200, "[]");
     read_json := fun _ => inr [];
     gspread_open := inr tt;
     gspread_batch_clear := inr tt;
     gspread_update := inr tt |}.

(** The rate request raises while Source B has no data. *)
Definition env_rate_fails : env :=
  {| settings := no_settings;
     criteo_token := inr "token";
     criteo_report := fun edits => inr (currency edits);
     read_csv := fun stats => inr (if String.eqb stats "USD" then [acme_csv] else []);
     fixer_rate := inl (Exception "KeyError");
     kelkoo_get := inr (200, "[]");
     read_json := fun _ => inr [];
     gspread_open := inr tt;
     gspread_batch_clear := inr tt;
     gspread_update := inr tt |}.

(** The edits of the three report requests (lines 187-201). *)
Definition usd_edits : payload_edits :=
  {| advertiserIds := None;
     metrics := ["Displays"; "Clicks"; "AdvertiserCost"];
     currency := "USD" |}.

Definition gbp_edits (s : Settings) : payload_edits :=
  {| advertiserIds := Some (CRITEO_GBP_IDS s);
     metrics := ["AdvertiserCost"];
     currency := "GBP" |}.

Definition eur_edits (s : Settings) : payload_edits :=
  {| advertiserIds := Some (CRITEO_EUR_IDS s);
     metrics := ["AdvertiserCost"];
     currency := "EUR" |}.

(** * Facts *)

(** ** Replacement tables *)

Lemma dict_get_None_replace (d : dict) (v : string) :
  dict_get d v = None -> replace_value d v = v.
Proof. unfold replace_value. intros ->. reflexivity. Qed.

Lemma dict_get_not_key (d : dict) (v : string) :
  ~ In v (dict_keys d) -> dict_get d v = None.
Proof.
  induction d as [| [k w] d IH]; simpl; intros H.
  - reflexivity.
  - destruct (String.eqb_spec k v) as [-> | _].
    + exfalso. apply H. now left.
    + apply IH. intros Hin. apply H. now right.
Qed.

Lemma dict_get_key_range (d : dict) (v w : string) :
  dict_get d v = Some w -> In v (dict_keys d) /\ In w (map snd d).
Proof.
  induction d as [| [k u] d IH]; simpl; [discriminate |].
  destruct (String.eqb_spec k v) as [-> | _].
  - intros [= ->]. split; now left.
  - intros H. destruct (IH H). split; now right.
Qed.

Lemma dict_key_get (d : dict) (v : string) :
  In v (dict_keys d) -> exists w, dict_get d v = Some w.
Proof.
  induction d as [| [k u] d IH]; simpl; [intros [] |].
  intros [<- | Hin].
  - rewrite String.eqb_refl. now exists u.
  - destruct (String.eqb k v); [now exists u | now apply IH].
Qed.

(** ** Grouping *)

Section GroupKeysFacts.
Variables Row K : Type.
Variable K_eq_dec : forall x y : K, {x = y} + {x <> y}.
Variable K_leb : K -> K -> bool.
Variable key : Row -> option K.

Lemma insert_key_perm (k : K) (ks : list K) :
  Permutation (insert_key K_leb k ks) (k :: ks).
Proof.
  induction ks as [| h t IH]; simpl.
  - apply Permutation_refl.
  - destruct (K_leb k h).
    + apply Permutation_refl.
    + eapply perm_trans; [apply perm_skip, IH | apply perm_swap].
Qed.

Lemma sort_keys_perm (ks : list K) : Permutation (sort_keys K_leb ks) ks.
Proof.
  induction ks as [| k ks IH]; simpl.
  - apply perm_nil.
  - eapply perm_trans; [apply insert_key_perm | now apply perm_skip].
Qed.

Lemma keys_of_In (rows : list Row) (k : K) :
  In k (keys_of key rows) <-> exists r, In r rows /\ key r = Some k.
Proof.
  unfold keys_of. rewrite in_flat_map. split.
  - intros (r & Hr & Hk). exists r. split; [exact Hr |].
    destruct (key r) as [k' |]; simpl in Hk; [| contradiction].
    destruct Hk as [-> | []]. reflexivity.
  - intros (r & Hr & Hk). exists r. split; [exact Hr |].
    rewrite Hk. now left.
Qed.

Lemma group_keys_NoDup (rows : list Row) :
  NoDup (group_keys K_eq_dec K_leb key rows).
Proof.
  unfold group_keys.
  eapply Permutation_NoDup.
  - apply Permutation_sym, sort_keys_perm.
  - apply NoDup_nodup.
Qed.

Lemma group_keys_In (rows : list Row) (k : K) :
  In k (group_keys K_eq_dec K_leb key rows)
  <-> exists r, In r rows /\ key r = Some k.
Proof.
  unfold group_keys.
  rewrite <- keys_of_In, <- (nodup_In K_eq_dec (keys_of key rows) k).
  split; apply Permutation_in;
    [apply sort_keys_perm | apply Permutation_sym, sort_keys_perm].
Qed.

Lemma group_In (rows : list Row) (k : K) (r : Row) :
  In r (group K_eq_dec key rows k) <-> In r rows /\ key r = Some k.
Proof using K_eq_dec key.
  unfold group, has_key. rewrite filter_In.
  destruct (key r) as [k' |].
  - destruct (K_eq_dec k k') as [-> | Hne].
    + split; intros [Hr _]; split; auto.
    + split; [intros [_ H]; discriminate | intros [_ [= H]]; congruence].
  - split; intros [_ H]; discriminate.
Qed.

Lemma group_nonempty (rows : list Row) (k : K) :
  In k (group_keys K_eq_dec K_leb key rows) ->
  group K_eq_dec key rows k <> [].
Proof.
  intros Hin Hnil. apply group_keys_In in Hin. destruct Hin as (r & Hr & Hk).
  assert (Hg : In r (group K_eq_dec key rows k)).
  { apply group_In. split; [exact Hr | exact Hk]. }
  rewrite Hnil in Hg. exact Hg.
Qed.

(** Summing a count column group by group gives what summing it over all
    rows with a key gives. *)
Variable f : Row -> option Z.

Lemma total_zero (ks : list K) : total (map (fun _ : K => 0) ks) = 0.
Proof. induction ks as [| k ks IH]; simpl; [reflexivity | exact IH]. Qed.

Lemma total_one_key (v : Z) (S : K -> Z) (k0 : K) (ks : list K) :
  NoDup ks ->
  total (map (fun k => (if K_eq_dec k k0 then v else 0) + S k) ks)
  = (if in_dec K_eq_dec k0 ks then v else 0) + total (map S ks).
Proof.
  induction 1 as [| k ks Hnotin Hnd IH]; simpl.
  - reflexivity.
  - rewrite IH. destruct (K_eq_dec k k0) as [-> | Hne].
    + destruct (in_dec K_eq_dec k0 ks); [contradiction | lia].
    + destruct (in_dec K_eq_dec k0 ks); lia.
Qed.

Lemma group_sums_total (ks : list K) (rows : list Row) :
  NoDup ks ->
  (forall r k, In r rows -> key r = Some k -> In k ks) ->
  total (map (fun k => sum_Z (map f (group K_eq_dec key rows k))) ks)
  = sum_Z (map f (filter (keyed key) rows)).
Proof.
  intros Hnd. induction rows as [| r rows IH]; intros Hall.
  - simpl. apply total_zero.
  - assert (IH' := IH (fun r' k Hin Hk => Hall r' k (or_intror Hin) Hk)).
    unfold group, keyed, has_key in *. simpl.
    destruct (key r) as [k0 |] eqn:Hk0; simpl.
    + rewrite <- IH'.
      transitivity
        (total (map (fun k =>
                  (if K_eq_dec k k0
                   then match f r with Some z => z | None => 0 end
                   else 0)
                  + sum_Z (map f (filter (has_key K_eq_dec key k) rows))) ks)).
      * f_equal. apply map_ext. intros k.
        unfold has_key. destruct (K_eq_dec k k0); simpl.
        -- destruct (f r); lia.
        -- lia.
      * rewrite total_one_key by exact Hnd.
        destruct (in_dec K_eq_dec k0 ks) as [_ | Hout].
        -- unfold has_key. destruct (f r); lia.
        -- exfalso. apply Hout. apply (Hall r); [now left | exact Hk0].
    + exact IH'.
Qed.

Lemma groupby_sum_preserving (rows : list Row) :
  total (map (fun k => sum_Z (map f (group K_eq_dec key rows k)))
           (group_keys K_eq_dec K_leb key rows))
  = sum_Z (map f (filter (keyed key) rows)).
Proof.
  apply group_sums_total.
  - apply group_keys_NoDup.
  - intros r k Hr Hk. apply group_keys_In. now exists r.
Qed.
End GroupKeysFacts.

Section GroupByFacts.
Variables Row K Out : Type.
Variable K_eq_dec : forall x y : K, {x = y} + {x <> y}.
Variable K_leb : K -> K -> bool.
Variable key : Row -> option K.
Variable agg : K -> list Row -> Out.

Lemma groupby_In (rows : list Row) (o : Out) :
  In o (groupby K_eq_dec K_leb key agg rows)
  <-> exists k, In k (group_keys K_eq_dec K_leb key rows)
                /\ o = agg k (group K_eq_dec key rows k).
Proof.
  unfold groupby. rewrite in_map_iff. split.
  - intros (k & <- & Hk). now exists k.
  - intros (k & Hk & ->). now exists k.
Qed.
End GroupByFacts.

(** ** The outer merge *)

Section OuterMergeFacts.
Variables L R K M : Type.
Variable K_eq_dec : forall x y : K, {x = y} + {x <> y}.
Variable lkey : L -> K.
Variable rkey : R -> K.
Variable combine : K -> option L -> option R -> M.

Lemma merge_outer_In (left : list L) (right : list R) (m : M) :
  In m (merge_outer K_eq_dec lkey rkey combine left right) ->
  exists k x y,
    m = combine k x y
    /\ side_of left lkey k x
    /\ side_of right rkey k y
    /\ (x <> None \/ y <> None).
Proof.
  unfold merge_outer. intros Hin. apply in_app_or in Hin.
  destruct Hin as [Hin | Hin].
  - apply in_flat_map in Hin. destruct Hin as (x & Hx & Hin).
    unfold merge_left_row in Hin.
    destruct (filter (fun y => same_key K_eq_dec (lkey x) (rkey y)) right)
      as [| y0 ys] eqn:Hmatch.
    + destruct Hin as [<- | []].
      exists (lkey x), (Some x), None. simpl.
      repeat split; auto. left. discriminate.
    + apply in_map_iff in Hin. destruct Hin as (y & <- & Hy).
      rewrite <- Hmatch in Hy. apply filter_In in Hy. destruct Hy as [Hy Hsame].
      unfold same_key in Hsame.
      destruct (K_eq_dec (lkey x) (rkey y)) as [Heq | _]; [| discriminate].
      exists (lkey x), (Some x), (Some y). simpl.
      repeat split; auto. left. discriminate.
  - apply in_map_iff in Hin. destruct Hin as (y & <- & Hy).
    apply filter_In in Hy. destruct Hy as [Hy _].
    exists (rkey y), None, (Some y). simpl.
    repeat split; auto. right. discriminate.
Qed.
End OuterMergeFacts.

(** ** The process monad *)

Lemma untouched_ret {A : Type} (a : A) : sheet_untouched (ret a).
Proof. intros w. reflexivity. Qed.

Lemma untouched_raise {A : Type} (ex : exn) : sheet_untouched (@raise A ex).
Proof. intros w. reflexivity. Qed.

Lemma untouched_lift {A : Type} (r : result A) : sheet_untouched (lift r).
Proof. intros w. reflexivity. Qed.

Lemma untouched_print (line : string) : sheet_untouched (print line).
Proof. intros w. reflexivity. Qed.

Lemma untouched_bind {A B : Type} (m : proc A) (f : A -> proc B) :
  sheet_untouched m -> (forall a, sheet_untouched (f a)) ->
  sheet_untouched (bind m f).
Proof.
  intros Hm Hf w. unfold bind. specialize (Hm w).
  destruct (m w) as [[ex | a] w1]; simpl in *.
  - exact Hm.
  - rewrite (Hf a w1). exact Hm.
Qed.

Lemma untouched_try_except {A : Type} (body : proc A) (handler : exn -> proc A) :
  sheet_untouched body -> (forall ex, sheet_untouched (handler ex)) ->
  sheet_untouched (try_except body handler).
Proof.
  intros Hb Hh w. unfold try_except. specialize (Hb w).
  destruct (body w) as [[[code | name] | a] w1]; simpl in *; try exact Hb.
  rewrite (Hh (Exception name) w1). exact Hb.
Qed.

Ltac untouched :=
  repeat first
    [ apply untouched_ret
    | apply untouched_raise
    | apply untouched_lift
    | apply untouched_print
    | apply untouched_bind; [| intros ]
    | apply untouched_try_except; [| intros ]
    | match goal with
      | |- sheet_untouched (if ?b then _ else _) => destruct b
      | |- sheet_untouched (match ?x with _ => _ end) => destruct x
      end ].

Lemma criteo_build_untouched (e : env) :
  sheet_untouched (criteo_build_final_dataframe e).
Proof.
  unfold criteo_build_final_dataframe, criteo_get_auth, criteo_get_csv,
    criteo_create_dataframes.
  untouched.
Qed.

Lemma kelkoo_build_untouched (e : env) :
  sheet_untouched (kelkoo_build_final_dataframe e).
Proof.
  unfold kelkoo_build_final_dataframe, fixer_get_conversion_rate,
    kelkoo_format_and_group_dataframe, kelkoo_create_dataframe,
    kelkoo_get_json, sys_exit.
  untouched.
Qed.

Lemma merge_untouched (criteo_df kelkoo_df : option frame) :
  sheet_untouched (merge_dataframes criteo_df kelkoo_df).
Proof. unfold merge_dataframes, sys_exit. untouched. Qed.

Lemma fetch_and_merge_untouched (e : env) : sheet_untouched (fetch_and_merge e).
Proof.
  unfold fetch_and_merge.
  apply untouched_bind; [apply criteo_build_untouched | intros c].
  apply untouched_bind; [apply kelkoo_build_untouched | intros k].
  apply merge_untouched.
Qed.

(** [sheet_upload] is its first three steps, then the sink. *)
Lemma sheet_upload_steps (e : env) (w : world) :
  sheet_upload e w
  = (merged_df <- fetch_and_merge e ;;
     worksheet <- prep_sheet e ;;
     gsheet_upload e worksheet merged_df ;;;
     print "Finished - check sheet.") w.
Proof.
  unfold sheet_upload, fetch_and_merge, bind.
  destruct (criteo_build_final_dataframe e w) as [[ex | c] w1]; [reflexivity |].
  destruct (kelkoo_build_final_dataframe e w1) as [[ex | k] w2]; reflexivity.
Qed.

(** A status other than 200 ends [__kelkoo_get_json] by [sys.exit()]. *)
Lemma kelkoo_get_json_non_200 (e : env) (w : world) (status : Z) (body : string) :
  kelkoo_get e = inr (status, body) -> status <> 200 ->
  kelkoo_get_json e w
  = (inl (SystemExit None),
     {| stdout := stdout w ++
          ["Auto Cost Uploader has failed - Kelkoo API connection error"];
        gsheet_calls := gsheet_calls w |}).
Proof.
  intros Hget Hne. unfold kelkoo_get_json, bind, lift. rewrite Hget. simpl.
  destruct (Z.eqb_spec status 200) as [Heq | _]; [contradiction |].
  reflexivity.
Qed.

Lemma kelkoo_get_json_200 (e : env) (w : world) (body : string) :
  kelkoo_get e = inr (200, body) -> kelkoo_get_json e w = (inr body, w).
Proof.
  intros Hget. unfold kelkoo_get_json, bind, lift. rewrite Hget. reflexivity.
Qed.

(** A failed token request is reported, re-raised, and ends the run with
    that exception. *)
Lemma criteo_auth_failure (e : env) (w : world) (name : string) :
  criteo_token e = inl (Exception name) ->
  sheet_upload e w
  = (inl (Exception name),
     {| stdout := stdout w ++
          ["Auto Cost Uploader has failed - Criteo API connection error."];
        gsheet_calls := gsheet_calls w |}).
Proof.
  intros Htok.
  unfold sheet_upload, criteo_build_final_dataframe, criteo_get_auth,
    try_except, bind, lift.
  rewrite Htok. reflexivity.
Qed.

(** * The claims *)

(** ** Device taxonomy *)

Lemma device_range_canonical (d : dict) (w : string) :
  d = criteo_device_map \/ d = kelkoo_device_map ->
  In w (map snd d) -> In w canonical_devices.
Proof.
  intros [-> | ->]; simpl; intros H;
    repeat (destruct H as [<- | H]; [simpl; tauto |]); contradiction.
Qed.

Lemma device_canonical_not_key (d : dict) (c : string) :
  d = criteo_device_map \/ d = kelkoo_device_map ->
  In c canonical_devices -> dict_get d c = None.
Proof.
  intros [-> | ->]; simpl; intros H;
    repeat (destruct H as [<- | H]; [reflexivity |]); contradiction.
Qed.

(** C1, as the code has it: under either normalizer's table a label of the
    table's known set maps to one of desktop, tablet, mobile, unknown; a label
    outside the known set is left as it is (it does not become unknown); a
    canonical label is left as it is, and applying the table twice gives what
    applying it once gives. *)
Theorem device_map_known_canonical_else_unchanged (d : dict) (label : string) :
  d = criteo_device_map \/ d = kelkoo_device_map ->
  (In label (dict_keys d) -> In (replace_value d label) canonical_devices)
  /\ (~ In label (dict_keys d) -> replace_value d label = label)
  /\ (In label canonical_devices -> replace_value d label = label)
  /\ replace_value d (replace_value d label) = replace_value d label.
Proof.
  intros Hd. repeat split.
  - intros Hin. destruct (dict_key_get d label Hin) as [w Hw].
    unfold replace_value. rewrite Hw.
    eapply device_range_canonical; [exact Hd |].
    eapply dict_get_key_range, Hw.
  - intros Hout. apply dict_get_None_replace, dict_get_not_key, Hout.
  - intros Hc. eapply dict_get_None_replace, device_canonical_not_key; eauto.
  - unfold replace_value at 2 3.
    destruct (dict_get d label) as [w |] eqn:Hw.
    + eapply dict_get_None_replace, device_canonical_not_key; [exact Hd |].
      eapply device_range_canonical; [exact Hd |].
      eapply dict_get_key_range, Hw.
    + now apply dict_get_None_replace.
Qed.

Lemma device_map_known_canonical_else_unchanged_witness :
  In (replace_value criteo_device_map "Smartphone") canonical_devices
  /\ replace_value kelkoo_device_map "Console" = "Console"
  /\ replace_value kelkoo_device_map "mobile" = "mobile".
Proof.
  split; [| split].
  - destruct (@device_map_known_canonical_else_unchanged
                criteo_device_map "Smartphone" (or_introl eq_refl))
      as (Hknown & _).
    apply Hknown. simpl. tauto.
  - destruct (@device_map_known_canonical_else_unchanged
                kelkoo_device_map "Console" (or_intror eq_refl))
      as (_ & Hkept & _).
    apply Hkept. simpl. intros H.
    repeat (destruct H as [H | H]; [discriminate H |]). exact H.
  - destruct (@device_map_known_canonical_else_unchanged
                kelkoo_device_map "mobile" (or_intror eq_refl))
      as (_ & _ & Hcanon & _).
    apply Hcanon. simpl. tauto.
Defined.

(** C1 as stated fails: "Console" is in neither table and "Mobile" is not in
    the Criteo table; both stay as they are instead of becoming unknown. *)
Lemma device_map_unmapped_not_unknown :
  ~ In "Console" (dict_keys criteo_device_map)
  /\ ~ In "Console" (dict_keys kelkoo_device_map)
  /\ replace_value criteo_device_map "Console" = "Console"
  /\ replace_value kelkoo_device_map "Console" = "Console"
  /\ replace_value criteo_device_map "Console" <> "unknown"
  /\ ~ In (replace_value criteo_device_map "Console") canonical_devices
  /\ ~ In "Mobile" (dict_keys criteo_device_map)
  /\ replace_value criteo_device_map "Mobile" = "Mobile".
Proof.
  repeat split; try reflexivity; try discriminate;
    simpl; intros H;
    repeat (destruct H as [H | H]; [discriminate H |]); exact H.
Qed.

(** ** Exit behaviour *)

(** C2, at the failing inputs: when the statistics endpoint answers 500, and
    when both sources are empty, the run prints its failure line and ends by
    [sys.exit()] without a code, so with exit status 0, the status of the
    successful run; no worksheet call is issued. *)
Theorem failure_exits_with_status_zero :
  sheet_upload env_kelkoo_500 initial_world
  = (inl (SystemExit None),
     {| stdout := ["Auto Cost Uploader has failed - Kelkoo API connection error"];
        gsheet_calls := [] |})
  /\ exit_status (fst (sheet_upload env_kelkoo_500 initial_world)) = 0
  /\ sheet_upload env_both_empty initial_world
     = (inl (SystemExit None),
        {| stdout := ["Auto Cost Uploader has failed - no data provided."];
           gsheet_calls := [] |})
  /\ exit_status (fst (sheet_upload env_both_empty initial_world)) = 0
  /\ fst (sheet_upload env_ok initial_world) = inr tt
  /\ stdout (snd (sheet_upload env_ok initial_world)) = ["Finished - check sheet."]
  /\ exit_status (fst (sheet_upload env_ok initial_world)) = 0.
Proof. repeat split; vm_compute; reflexivity. Qed.

(** ** Merge *)

(** C4: with one input absent the other is returned as it is; with both
    absent the failure line is printed and the process ends by [sys.exit()];
    with both present the result is the rows of the first followed by the
    rows of the second, nothing else done to them. *)
Theorem merge_dataframes_absence (a b : frame) (w : world) :
  merge_dataframes (Some a) None w = (inr a, w)
  /\ merge_dataframes None (Some b) w = (inr b, w)
  /\ merge_dataframes None None w
     = (inl (SystemExit None),
        {| stdout := stdout w ++
             ["Auto Cost Uploader has failed - no data provided."];
           gsheet_calls := gsheet_calls w |})
  /\ merge_dataframes (Some a) (Some b) w = (inr (a ++ b)%list, w).
Proof. repeat split. Qed.

(** C9: with both inputs present the merged frame is the Criteo rows in
    their order followed by the Kelkoo rows in theirs: its first rows are
    exactly the first frame, the rest exactly the second. *)
Theorem merge_keeps_source_order (a b : frame) (w : world) :
  exists merged,
    merge_dataframes (Some a) (Some b) w = (inr merged, w)
    /\ List.length merged = (List.length a + List.length b)%nat
    /\ firstn (List.length a) merged = a
    /\ skipn (List.length a) merged = b
    /\ (forall i, nth_error merged (List.length a + i) = nth_error b i)
    /\ (forall i r, nth_error a i = Some r -> nth_error merged i = Some r).
Proof.
  exists (a ++ b)%list. repeat split.
  - apply length_app.
  - now rewrite firstn_app, firstn_all, Nat.sub_diag, firstn_O, app_nil_r.
  - now rewrite skipn_app, skipn_all, Nat.sub_diag, skipn_O.
  - intros i. rewrite nth_error_app2 by lia. f_equal. lia.
  - intros i r Hi. rewrite nth_error_app1; [exact Hi |].
    apply nth_error_Some. congruence.
Qed.

Lemma merge_keeps_source_order_witness :
  exists merged,
    merge_dataframes (Some [acme_out]) (Some [round_costs acme_out]) initial_world
    = (inr merged, initial_world)
    /\ nth_error merged 0 = Some acme_out.
Proof.
  destruct (merge_keeps_source_order [acme_out] [round_costs acme_out]
              initial_world) as (merged & Hm & _ & _ & _ & _ & Ha).
  exists merged. split; [exact Hm |].
  apply Ha. reflexivity.
Defined.

(** ** The sink comes last *)

(** C5: the fetch, normalize and merge steps issue no worksheet call; when
    they end in an exception or [sys.exit], the run ends there with it, and
    the worksheet calls issued are those issued before the run: neither the
    clear of A:J nor the update has happened. *)
Theorem no_sheet_call_unless_merge_succeeds (e : env) (w w' : world) (ex : exn) :
  fetch_and_merge e w = (inl ex, w') ->
  sheet_upload e w = (inl ex, w')
  /\ gsheet_calls w' = gsheet_calls w
  /\ gsheet_calls (snd (sheet_upload e w)) = gsheet_calls w.
Proof.
  intros Hfail.
  assert (Hrun : sheet_upload e w = (inl ex, w')).
  { rewrite sheet_upload_steps. unfold bind at 1. rewrite Hfail. reflexivity. }
  assert (Hcalls : gsheet_calls w' = gsheet_calls w).
  { generalize (fetch_and_merge_untouched e w). rewrite Hfail. trivial. }
  repeat split; [exact Hrun | exact Hcalls |].
  rewrite Hrun. exact Hcalls.
Qed.

Lemma no_sheet_call_unless_merge_succeeds_witness :
  sheet_upload env_kelkoo_500 initial_world
  = (inl (SystemExit None),
     {| stdout := ["Auto Cost Uploader has failed - Kelkoo API connection error"];
        gsheet_calls := [] |})
  /\ gsheet_calls (snd (sheet_upload env_kelkoo_500 initial_world)) = [].
Proof.
  destruct (no_sheet_call_unless_merge_succeeds
              env_kelkoo_500 initial_world (ex := SystemExit None)
              (w' := {| stdout :=
                          ["Auto Cost Uploader has failed - Kelkoo API connection error"];
                        gsheet_calls := [] |}))
    as (Hrun & _ & Hcalls).
  - vm_compute. reflexivity.
  - split; [exact Hrun | exact Hcalls].
Defined.

(** ** Source A: coalescing *)

Lemma criteo_merge_joined_from (df_usd : list Usd.row) (df_eur : list Eur.row)
  (df_gbp : list Gbp.row) (m : Merged.row) :
  In m (criteo_merge df_usd df_eur df_gbp) ->
  exists u e g, joined_from df_usd df_eur df_gbp m u e g.
Proof.
  unfold criteo_merge. intros Hin.
  apply merge_outer_In in Hin.
  destruct Hin as (k & ue & g & -> & Hue & Hg & _).
  destruct k as [adv [day dev]].
  destruct ue as [r |].
  - destruct Hue as [Hr Hkey].
    apply merge_outer_In in Hr.
    destruct Hr as (k' & u & e & -> & Hu & He & _).
    destruct k' as [adv' [day' dev']].
    unfold usd_eur_key in Hkey. simpl in Hkey. injection Hkey as -> -> ->.
    exists u, e, g. unfold joined_from, merged_key. simpl.
    repeat split; auto.
  - exists None, None, g. unfold joined_from, merged_key. simpl.
    repeat split; auto.
Qed.

Lemma Forall2_map_In {A B : Type} (P : A -> B -> Prop) (f : A -> B)
  (l : list A) :
  (forall a, In a l -> P a (f a)) -> Forall2 P l (map f l).
Proof.
  induction l as [| a l IH]; intros H; simpl; constructor.
  - apply H. now left.
  - apply IH. intros a' Ha'. apply H. now right.
Qed.

(** C3: every row of the joined frame takes its columns from rows of the USD,
    EUR and GBP frames with its key (or from none), and the billing currency
    the grouping reads for it is the GBP currency when there is one, else the
    EUR currency when there is one, else the currency of the USD table; the
    billing cost is the GBP cost, else the EUR cost, else the USD cost
    [costusd]. *)
Theorem criteo_coalescing_priority (s : Settings) (df_usd : list Usd.row)
  (df_eur : list Eur.row) (df_gbp : list Gbp.row) :
  Forall2
    (fun m f =>
       (exists u e g,
           joined_from df_usd df_eur df_gbp m u e g
           /\ Formatted.billingcurrency f
              = match column g Gbp.billingcurrency_gbp,
                      column e Eur.billingcurrency_eur with
                | Some gbp, _ => Some gbp
                | None, Some eur => Some eur
                | None, None => column u Usd.billingcurrency
                end
           /\ Formatted.billingcost f
              = match column g Gbp.billingcost_gbp,
                      column e Eur.billingcost_eur with
                | Some gbp, _ => Some gbp
                | None, Some eur => Some eur
                | None, None => column u Usd.costusd
                end)
       /\ Formatted.billingcurrency f
          = match Merged.billingcurrency_gbp m, Merged.billingcurrency_eur m with
            | Some gbp, _ => Some gbp
            | None, Some eur => Some eur
            | None, None => Merged.billingcurrency m
            end
       /\ Formatted.billingcost f
          = match Merged.billingcost_gbp m, Merged.billingcost_eur m with
            | Some gbp, _ => Some gbp
            | None, Some eur => Some eur
            | None, None => Merged.costusd m
            end
       /\ Formatted.costusd f = Merged.costusd m)
    (criteo_merge df_usd df_eur df_gbp)
    (criteo_formatted s df_usd df_eur df_gbp).
Proof.
  unfold criteo_formatted. apply Forall2_map_In. intros m Hm.
  assert (Hcoalesce :
            Formatted.billingcurrency (criteo_format_row s m)
            = match Merged.billingcurrency_gbp m, Merged.billingcurrency_eur m with
              | Some gbp, _ => Some gbp
              | None, Some eur => Some eur
              | None, None => Merged.billingcurrency m
              end
            /\ Formatted.billingcost (criteo_format_row s m)
               = match Merged.billingcost_gbp m, Merged.billingcost_eur m with
                 | Some gbp, _ => Some gbp
                 | None, Some eur => Some eur
                 | None, None => Merged.costusd m
                 end).
  { unfold criteo_format_row; simpl.
    unfold coalesce_billingcurrency, coalesce_billingcost, fillna.
    destruct (Merged.billingcurrency_gbp m), (Merged.billingcurrency_eur m),
      (Merged.billingcost_gbp m), (Merged.billingcost_eur m);
      split; reflexivity. }
  destruct Hcoalesce as [Hcur Hcost].
  split; [| split; [exact Hcur | split; [exact Hcost | reflexivity]]].
  destruct (criteo_merge_joined_from _ _ _ _ Hm) as (u & e & g & Hfrom).
  exists u, e, g. split; [exact Hfrom |].
  destruct Hfrom as (_ & _ & _ & _ & _ & Hc & Hbc & Hce & Hbce & Hcg & Hbcg).
  rewrite Hcur, Hcost, Hc, Hbc, Hce, Hbce, Hcg, Hbcg. split; reflexivity.
Qed.

(** ** Source A: the Acme scenario *)

(** C7, as the code has it: from a USD report with the single Acme row (day
    2024-01-01, device Desktop, 100 displays, 5 clicks, cost 10.00, currency
    USD) and GBP and EUR reports without rows, the normalizer returns exactly
    one row: date 2024-01-01, device desktop, impressions 100, clicks 5,
    billingcost 10.00, billingcurrency USD, costusd 10.00, engine Criteo,
    majormarket Acme, channel Retargeting, whenever the configured market
    table leaves Acme alone. *)
Theorem criteo_usd_only_acme (s : Settings) :
  dict_get (CRITEO_MARKET_REPLACEMENTS s) "Acme" = None ->
  criteo_merge_and_format_dataframes s
    (criteo_create_frame columns_usd [acme_csv])
    (criteo_create_frame columns_eur [])
    (criteo_create_frame columns_gbp [])
  = Some [acme_out].
Proof.
  intros Hacme.
  unfold criteo_merge_and_format_dataframes, criteo_formatted.
  set (df_merged := criteo_merge _ _ _).
  vm_compute in df_merged. subst df_merged.
  cbv [advertiser_empty filter notna Merged.Advertiser map].
  match goal with
  | |- context [criteo_format_row s ?m] =>
      assert (Hfmt : criteo_format_row s m
                     = {| Formatted.date := Some "2024-01-01";
                          Formatted.device := Some "desktop";
                          Formatted.impressions := Some 100;
                          Formatted.clicks := Some 5;
                          Formatted.billingcost := Some (10 # 1)%Q;
                          Formatted.billingcurrency := Some "USD";
                          Formatted.costusd := Some (10 # 1)%Q;
                          Formatted.engine := Some "Criteo";
                          Formatted.majormarket := Some "Acme";
                          Formatted.channel := Some "Retargeting" |})
        by (unfold criteo_format_row, replace; simpl;
            now rewrite (dict_get_None_replace _ _ Hacme));
      rewrite Hfmt
  end.
  vm_compute. reflexivity.
Qed.

Lemma criteo_usd_only_acme_witness :
  criteo_merge_and_format_dataframes no_settings
    (criteo_create_frame columns_usd [acme_csv])
    (criteo_create_frame columns_eur [])
    (criteo_create_frame columns_gbp [])
  = Some [acme_out].
Proof. apply (criteo_usd_only_acme no_settings). reflexivity. Defined.

(** C7 as stated fails on the engine column: the row returned carries the
    text Criteo, which line 131 assigns, not the text SourceA.  The market
    column is Acme only under a market table without an entry for Acme. *)
Lemma criteo_usd_only_acme_engine_is_Criteo :
  criteo_merge_and_format_dataframes no_settings
    (criteo_create_frame columns_usd [acme_csv])
    (criteo_create_frame columns_eur [])
    (criteo_create_frame columns_gbp [])
  <> Some [acme_claimed]
  /\ map engine
       (match criteo_merge_and_format_dataframes no_settings
                (criteo_create_frame columns_usd [acme_csv])
                (criteo_create_frame columns_eur [])
                (criteo_create_frame columns_gbp []) with
        | Some out => out
        | None => []
        end)
     = ["Criteo"]
  /\ map majormarket
       (match criteo_merge_and_format_dataframes acme_to_uk
                (criteo_create_frame columns_usd [acme_csv])
                (criteo_create_frame columns_eur [])
                (criteo_create_frame columns_gbp []) with
        | Some out => out
        | None => []
        end)
     = ["UK"].
Proof.
  split; [| split].
  - vm_compute. intros H. discriminate H.
  - vm_compute. reflexivity.
  - vm_compute. reflexivity.
Qed.

(** ** Source B: the sentinel and the dates *)

(** C8: with a status 200 body, [__kelkoo_create_dataframe] returns [None]
    exactly when the body is the text "[]"; any other body, an empty array
    written differently included, is given to [pd.read_json], whose frame
    (or exception) decides the outcome. *)
Theorem kelkoo_sentinel_is_exact_text (e : env) (w : world) (body : string) :
  kelkoo_get e = inr (200, body) ->
  (fst (kelkoo_create_dataframe e w) = inr None <-> body = "[]")
  /\ (body = "[]" -> kelkoo_create_dataframe e w = (inr None, w))
  /\ (body <> "[]" ->
      kelkoo_create_dataframe e w
      = match read_json e body with
        | inl ex => (inl ex, w)
        | inr [] => (inl (Exception "KeyError"), w)
        | inr (r :: df) => (inr (Some (map astype_str (r :: df))), w)
        end).
Proof.
  intros Hget.
  assert (Hrun : kelkoo_create_dataframe e w
                 = if String.eqb body "[]" then (inr None, w)
                   else match read_json e body with
                        | inl ex => (inl ex, w)
                        | inr [] => (inl (Exception "KeyError"), w)
                        | inr (r :: df) =>
                            (inr (Some (map astype_str (r :: df))), w)
                        end).
  { unfold kelkoo_create_dataframe, bind at 1.
    rewrite (kelkoo_get_json_200 e w Hget).
    destruct (String.eqb body "[]"); [reflexivity |].
    unfold bind, lift.
    destruct (read_json e body) as [ex | [| r df]]; reflexivity. }
  rewrite Hrun.
  destruct (String.eqb_spec body "[]") as [Heq | Hne].
  - repeat split; auto. intros Hne. contradiction.
  - repeat split.
    + intros Hnone. exfalso.
      destruct (read_json e body) as [ex | [| r df]]; discriminate Hnone.
    + intros Heq. contradiction.
    + intros Heq. contradiction.
Qed.

Lemma kelkoo_sentinel_is_exact_text_witness :
  fst (kelkoo_create_dataframe env_blank_array initial_world) <> inr None
  /\ kelkoo_create_dataframe env_blank_array initial_world
     = (inl (Exception "KeyError"), initial_world)
  /\ kelkoo_create_dataframe env_both_empty initial_world
     = (inr None, initial_world).
Proof.
  destruct (@kelkoo_sentinel_is_exact_text env_blank_array initial_world "[ ]"
              eq_refl) as (Hiff & _ & Hparse).
  destruct (@kelkoo_sentinel_is_exact_text env_both_empty initial_world "[]"
              eq_refl) as (_ & Hnone & _).
  split; [| split].
  - intros Habs. apply Hiff in Habs. discriminate Habs.
  - rewrite Hparse by discriminate. reflexivity.
  - apply Hnone. reflexivity.
Defined.

Lemma kelkoo_format_and_group_dates (usd_rate : Q)
  (kelkoo_df : list (Json.row string)) (r : CostRow) :
  In r (kelkoo_format_and_group usd_rate kelkoo_df) ->
  exists j, In j kelkoo_df /\ date r = Json.date j.
Proof.
  unfold kelkoo_format_and_group, kelkoo_groupby.
  rewrite in_map_iff. intros (g & <- & Hg).
  apply groupby_In in Hg. destruct Hg as (k & Hk & ->).
  apply group_keys_In in Hk. destruct Hk as (row & Hrow & Hkey).
  apply in_map_iff in Hrow. destruct Hrow as (j & <- & Hj).
  exists j. split; [exact Hj |].
  unfold kelkoo_row_key in Hkey. simpl in *.
  destruct (replace kelkoo_device_map (Json.deviceType j)); [| discriminate].
  injection Hkey as <-. reflexivity.
Qed.

(** C10: when the Kelkoo normalizer returns a frame, the date of each of its
    rows is the text [str] gives for the date of a parsed record, whatever
    kind of value the parser gave (text, number, timestamp); the conversion
    is done on the parsed frame, so the grouping already sees text, and the
    date cell sent to the sheet is a text cell. *)
Theorem kelkoo_output_dates_are_text (e : env) (usd_rate : Q) (w w' : world)
  (df : frame) :
  kelkoo_format_and_group_dataframe e usd_rate w = (inr (Some df), w') ->
  exists body parsed,
    kelkoo_get e = inr (200, body)
    /\ read_json e body = inr parsed
    /\ df = kelkoo_format_and_group usd_rate (map astype_str parsed)
    /\ forall r, In r df ->
         exists raw, In raw parsed
                     /\ date r = py_str (Json.date raw)
                     /\ nth_error (tolist r) 0
                        = Some (CellStr (py_str (Json.date raw))).
Proof.
  unfold kelkoo_format_and_group_dataframe, kelkoo_create_dataframe,
    kelkoo_get_json, sys_exit, bind, lift, raise, ret, print.
  destruct (kelkoo_get e) as [ex | [status body]] eqn:Hget; simpl;
    [discriminate |].
  destruct (Z.eqb_spec status 200) as [-> | Hne]; simpl; [| discriminate].
  destruct (String.eqb body "[]"); [discriminate |].
  destruct (read_json e body) as [ex | [| r0 parsed]] eqn:Hparse;
    try discriminate.
  intros [= <- <-].
  exists body, (r0 :: parsed).
  split; [reflexivity |]. split; [exact Hparse |]. split; [reflexivity |].
  intros r Hr.
  apply kelkoo_format_and_group_dates in Hr. destruct Hr as (j & Hj & Hdate).
  change (In j (map astype_str (r0 :: parsed))) in Hj.
  apply in_map_iff in Hj. destruct Hj as (raw & <- & Hraw).
  exists raw. split; [exact Hraw |]. split; [exact Hdate |].
  simpl. now rewrite Hdate.
Qed.

Lemma kelkoo_output_dates_are_text_witness :
  kelkoo_format_and_group_dataframe env_ok (127 # 100)%Q initial_world
  = (inr (Some [numeric_date_out]), initial_world)
  /\ is_str (Json.date numeric_date_json) = false
  /\ exists raw, In raw [numeric_date_json]
                 /\ date numeric_date_out = py_str (Json.date raw).
Proof.
  assert (Hrun : kelkoo_format_and_group_dataframe env_ok (127 # 100)%Q
                   initial_world
                 = (inr (Some [numeric_date_out]), initial_world))
    by (vm_compute; reflexivity).
  split; [exact Hrun |]. split; [reflexivity |].
  destruct (kelkoo_output_dates_are_text env_ok (127 # 100)%Q initial_world Hrun)
    as (body & parsed & Hget & Hparse & _ & Hrows).
  injection Hparse as <-.
  destruct (Hrows numeric_date_out (or_introl eq_refl)) as (raw & Hraw & Hdate & _).
  exists raw. split; [exact Hraw | exact Hdate].
Defined.

(** ** Aggregation within each source *)

Lemma criteo_agg_key (k : criteo_key) (g : list Formatted.row) :
  criteo_row_key (round_costs (criteo_agg k g)) = k.
Proof. destruct k as [d [dev [m c]]]. reflexivity. Qed.

Lemma kelkoo_agg_key (usd_rate : Q) (k : kelkoo_key) (g : list Kelkoo.row) :
  kelkoo_row_out_key (kelkoo_finish_row usd_rate (kelkoo_agg k g)) = k.
Proof. destruct k as [d dev]. reflexivity. Qed.

Lemma criteo_out_keys (rows : list Formatted.row) :
  map criteo_row_key (map round_costs (criteo_groupby rows))
  = group_keys criteo_key_dec criteo_key_leb formatted_key rows.
Proof.
  unfold criteo_groupby, groupby. rewrite !map_map.
  erewrite map_ext; [apply map_id |]. intros k. apply criteo_agg_key.
Qed.

Lemma kelkoo_out_keys (usd_rate : Q) (rows : list Kelkoo.row) :
  map kelkoo_row_out_key (map (kelkoo_finish_row usd_rate) (kelkoo_groupby rows))
  = group_keys kelkoo_key_dec kelkoo_key_leb kelkoo_row_key rows.
Proof.
  unfold kelkoo_groupby, groupby. rewrite !map_map.
  erewrite map_ext; [apply map_id |]. intros k. apply kelkoo_agg_key.
Qed.



(** * Further properties of the pipeline *)

(** ** The key order *)

Lemma ascii_compare_lt_trans (a b c : ascii) :
  Ascii.compare a b = Lt -> Ascii.compare b c = Lt -> Ascii.compare a c = Lt.
Proof.
  unfold Ascii.compare. rewrite !N.compare_lt_iff. apply N.lt_trans.
Qed.

Lemma string_compare_lt_trans (s1 s2 s3 : string) :
  String.compare s1 s2 = Lt -> String.compare s2 s3 = Lt ->
  String.compare s1 s3 = Lt.
Proof.
  revert s2 s3.
  induction s1 as [| a s1 IH]; intros [| b s2] [| c s3]; simpl;
    try discriminate; try reflexivity.
  destruct (Ascii.compare a b) eqn:Hab; try discriminate;
    destruct (Ascii.compare b c) eqn:Hbc; try discriminate.
  - rewrite (Ascii.compare_eq_iff _ _ Hab), Hbc. apply IH.
  - rewrite (Ascii.compare_eq_iff _ _ Hab), Hbc. reflexivity.
  - rewrite <- (Ascii.compare_eq_iff _ _ Hbc), Hab. reflexivity.
  - rewrite (ascii_compare_lt_trans _ _ _ Hab Hbc). reflexivity.
Qed.

Lemma string_compare_refl (s : string) : String.compare s s = Eq.
Proof.
  induction s as [| a s IH]; simpl; [reflexivity |].
  unfold Ascii.compare. rewrite N.compare_refl. exact IH.
Qed.

Lemma string_leb_trans (s1 s2 s3 : string) :
  String.leb s1 s2 = true -> String.leb s2 s3 = true -> String.leb s1 s3 = true.
Proof.
  unfold String.leb.
  destruct (String.compare s1 s2) eqn:H12; try discriminate;
    destruct (String.compare s2 s3) eqn:H23; try discriminate; intros _ _.
  - rewrite (String.compare_eq_iff _ _ H12), H23. reflexivity.
  - rewrite (String.compare_eq_iff _ _ H12), H23. reflexivity.
  - rewrite <- (String.compare_eq_iff _ _ H23), H12. reflexivity.
  - rewrite (string_compare_lt_trans _ _ _ H12 H23). reflexivity.
Qed.

Section LexOrder.
Variables A B : Type.
Variable leb : B -> B -> bool.
Hypothesis leb_total : forall x y, leb x y = true \/ leb y x = true.
Hypothesis leb_trans :
  forall x y z, leb x y = true -> leb y z = true -> leb x z = true.

Lemma lex_leb_string_total (x y : string * B) :
  lex_leb String.compare leb x y = true \/ lex_leb String.compare leb y x = true.
Proof.
  unfold lex_leb. rewrite (String.compare_antisym (fst y) (fst x)).
  destruct (String.compare (fst x) (fst y)); simpl; auto.
Qed.

Lemma lex_leb_string_trans (x y z : string * B) :
  lex_leb String.compare leb x y = true ->
  lex_leb String.compare leb y z = true ->
  lex_leb String.compare leb x z = true.
Proof.
  unfold lex_leb.
  destruct (String.compare (fst x) (fst y)) eqn:Hxy; try discriminate;
    destruct (String.compare (fst y) (fst z)) eqn:Hyz; try discriminate;
    intros H1 H2.
  - rewrite (String.compare_eq_iff _ _ Hxy), Hyz. eapply leb_trans; eauto.
  - rewrite (String.compare_eq_iff _ _ Hxy), Hyz. reflexivity.
  - rewrite <- (String.compare_eq_iff _ _ Hyz), Hxy. reflexivity.
  - rewrite (string_compare_lt_trans _ _ _ Hxy Hyz). reflexivity.
Qed.
End LexOrder.

Lemma kelkoo_key_leb_total (x y : kelkoo_key) :
  kelkoo_key_leb x y = true \/ kelkoo_key_leb y x = true.
Proof. apply lex_leb_string_total, String.leb_total. Qed.

Lemma kelkoo_key_leb_trans (x y z : kelkoo_key) :
  kelkoo_key_leb x y = true -> kelkoo_key_leb y z = true ->
  kelkoo_key_leb x z = true.
Proof. apply lex_leb_string_trans, string_leb_trans. Qed.

Lemma criteo_key_leb_total (x y : criteo_key) :
  criteo_key_leb x y = true \/ criteo_key_leb y x = true.
Proof.
  apply lex_leb_string_total. intros a b.
  apply lex_leb_string_total. intros c d.
  apply lex_leb_string_total, String.leb_total.
Qed.

Lemma criteo_key_leb_trans (x y z : criteo_key) :
  criteo_key_leb x y = true -> criteo_key_leb y z = true ->
  criteo_key_leb x z = true.
Proof.
  apply lex_leb_string_trans. intros a b c.
  apply lex_leb_string_trans. intros d f g.
  apply lex_leb_string_trans, string_leb_trans.
Qed.

(** Insertion into an ordered list of keys keeps it ordered. *)
Section SortedKeys.
Variable K : Type.
Variable K_leb : K -> K -> bool.
Hypothesis K_leb_total : forall x y, K_leb x y = true \/ K_leb y x = true.
Hypothesis K_leb_trans :
  forall x y z, K_leb x y = true -> K_leb y z = true -> K_leb x z = true.

Lemma insert_key_hd (k a : K) (ks : list K) :
  leb_rel K_leb a k -> HdRel (leb_rel K_leb) a ks -> HdRel (leb_rel K_leb) a (insert_key K_leb k ks).
Proof.
  intros Hak Hhd. destruct ks as [| h t]; simpl.
  - constructor. exact Hak.
  - destruct (K_leb k h); constructor; [exact Hak |].
    inversion Hhd; assumption.
Qed.

Lemma insert_key_sorted (k : K) (ks : list K) :
  Sorted (leb_rel K_leb) ks -> Sorted (leb_rel K_leb) (insert_key K_leb k ks).
Proof.
  induction 1 as [| h t Hs IH Hhd]; simpl.
  - constructor; constructor.
  - destruct (K_leb k h) eqn:Hkh.
    + constructor; [constructor; assumption | constructor; exact Hkh].
    + constructor; [exact IH |].
      apply insert_key_hd; [| exact Hhd].
      destruct (K_leb_total k h) as [Hle | Hle]; [congruence | exact Hle].
Qed.

Lemma sort_keys_sorted (ks : list K) : StronglySorted (leb_rel K_leb) (sort_keys K_leb ks).
Proof.
  apply Sorted_StronglySorted.
  - intros x y z. apply K_leb_trans.
  - induction ks as [| k ks IH]; simpl; [constructor |].
    apply insert_key_sorted, IH.
Qed.
End SortedKeys.

(** ** More on the outer merge *)

Section OuterMergeRows.
Variables L R K M : Type.
Variable K_eq_dec : forall x y : K, {x = y} + {x <> y}.
Variable lkey : L -> K.
Variable rkey : R -> K.
Variable combine : K -> option L -> option R -> M.

(** No row of either frame is lost. *)
Lemma merge_outer_left_kept (left : list L) (right : list R) (x : L) :
  In x left ->
  exists y, In (combine (lkey x) (Some x) y)
              (merge_outer K_eq_dec lkey rkey combine left right).
Proof.
  intros Hx. unfold merge_outer.
  assert (Hrow : exists y, In (combine (lkey x) (Some x) y)
                             (merge_left_row K_eq_dec lkey rkey combine right x)).
  { unfold merge_left_row.
    destruct (filter (fun y => same_key K_eq_dec (lkey x) (rkey y)) right)
      as [| y0 ys].
    - exists None. now left.
    - exists (Some y0). now left. }
  destruct Hrow as [y Hy]. exists y.
  apply in_or_app. left. apply in_flat_map. now exists x.
Qed.

Lemma merge_outer_right_kept (left : list L) (right : list R) (y : R) :
  In y right ->
  exists x, In (combine (rkey y) x (Some y))
              (merge_outer K_eq_dec lkey rkey combine left right).
Proof.
  intros Hy. unfold merge_outer.
  destruct (existsb (fun x => same_key K_eq_dec (lkey x) (rkey y)) left)
    eqn:Hmatch.
  - apply existsb_exists in Hmatch. destruct Hmatch as (x & Hx & Hsame).
    unfold same_key in Hsame.
    destruct (K_eq_dec (lkey x) (rkey y)) as [Heq | _]; [| discriminate].
    exists (Some x). apply in_or_app. left.
    apply in_flat_map. exists x. split; [exact Hx |].
    unfold merge_left_row.
    assert (Hin : In y (filter (fun y' => same_key K_eq_dec (lkey x) (rkey y'))
                          right)).
    { apply filter_In. split; [exact Hy |].
      unfold same_key. destruct (K_eq_dec (lkey x) (rkey y)); congruence. }
    destruct (filter (fun y' => same_key K_eq_dec (lkey x) (rkey y')) right)
      as [| y0 ys]; [contradiction |].
    rewrite <- Heq. apply in_map_iff. now exists y.
  - exists None. apply in_or_app. right.
    apply in_map_iff. exists y. split; [reflexivity |].
    apply filter_In. split; [exact Hy |]. now rewrite Hmatch.
Qed.

(** With at most one right row per key, a left row is matched at most once. *)
Lemma unique_key_match (right : list R) (k : K) :
  NoDup (map rkey right) ->
  (List.length (filter (fun y => same_key K_eq_dec k (rkey y)) right) <= 1)%nat.
Proof.
  induction right as [| y right IH]; simpl; intros Hnd; [lia |].
  inversion Hnd as [| ? ? Hnotin Hnd']; subst.
  unfold same_key at 1. destruct (K_eq_dec k (rkey y)) as [-> | Hne]; simpl.
  - assert (Hnone : filter (fun y' => same_key K_eq_dec (rkey y) (rkey y')) right
                    = []).
    { destruct (filter _ right) as [| y' ys] eqn:Hf; [reflexivity |].
      exfalso. apply Hnotin.
      assert (Hin : In y' (filter (fun y' => same_key K_eq_dec (rkey y) (rkey y'))
                             right)) by (rewrite Hf; now left).
      apply filter_In in Hin. destruct Hin as [Hin Hsame].
      unfold same_key in Hsame.
      destruct (K_eq_dec (rkey y) (rkey y')) as [-> | _]; [| discriminate].
      now apply in_map. }
    rewrite Hnone. simpl. lia.
  - apply IH, Hnd'.
Qed.

(** A count column of the left frame, summed over the merged frame, is what
    it is summed over the left frame, when the right frame has at most one
    row per key. *)
Lemma merge_outer_left_sum (f : M -> option Z) (g : L -> option Z)
  (left : list L) (right : list R) :
  NoDup (map rkey right) ->
  (forall k x y, f (combine k (Some x) y) = g x) ->
  (forall k y, f (combine k None y) = None) ->
  sum_Z (map f (merge_outer K_eq_dec lkey rkey combine left right))
  = sum_Z (map g left).
Proof.
  intros Hnd Hleft Hright. unfold merge_outer.
  assert (Hnone : forall ys : list R,
             sum_Z (map f (map (fun y => combine (rkey y) None (Some y)) ys)) = 0).
  { induction ys as [| y ys IH]; simpl; [reflexivity |].
    rewrite Hright. exact IH. }
  rewrite map_app.
  assert (Happ : forall a b : list (option Z),
             sum_Z (a ++ b) = sum_Z a + sum_Z b).
  { induction a as [| c a IH]; intros b; simpl; [reflexivity |].
    rewrite IH. destruct c; lia. }
  rewrite Happ, Hnone, Z.add_0_r.
  induction left as [| x left IH]; simpl; [reflexivity |].
  rewrite map_app, Happ, IH. f_equal.
  unfold merge_left_row.
  pose proof (unique_key_match right (lkey x) Hnd) as Hlen.
  destruct (filter (fun y => same_key K_eq_dec (lkey x) (rkey y)) right)
    as [| y0 [| y1 ys]]; simpl in *.
  - rewrite Hleft. destruct (g x); lia.
  - rewrite Hleft. destruct (g x); lia.
  - lia.
Qed.
End OuterMergeRows.

(** ** Source A: when there is no data, and what is conserved *)



Lemma sum_Z_filter_none {A : Type} (f : A -> option Z) (p : A -> bool)
  (l : list A) :
  (forall a, In a l -> p a = false -> f a = None) ->
  sum_Z (map f (filter p l)) = sum_Z (map f l).
Proof.
  induction l as [| a l IH]; intros H; simpl; [reflexivity |].
  assert (IH' := IH (fun a' Ha' => H a' (or_intror Ha'))).
  destruct (p a) eqn:Hp; simpl.
  - now rewrite IH'.
  - rewrite (H a (or_introl eq_refl) Hp). exact IH'.
Qed.

Lemma criteo_total_of_groups (f : Formatted.row -> option Z)
  (col : CostRow -> Z) (rows : list Formatted.row) :
  (forall k g, col (round_costs (criteo_agg k g)) = sum_Z (map f g)) ->
  total (map col (map round_costs (criteo_groupby rows)))
  = sum_Z (map f (filter (keyed formatted_key) rows)).
Proof.
  intros Hcol. unfold criteo_groupby, groupby. rewrite !map_map.
  erewrite map_ext; [apply groupby_sum_preserving |].
  intros k. apply Hcol.
Qed.

(** A joined row that carries counts has the key of a USD row. *)
Lemma counted_row_is_keyed (s : Settings) (df_usd : list Usd.row)
  (df_eur : list Eur.row) (df_gbp : list Gbp.row) (m : Merged.row) :
  (forall r, In r df_usd -> complete_key (usd_key r)) ->
  In m (criteo_merge df_usd df_eur df_gbp) ->
  keyed formatted_key (criteo_format_row s m) = false ->
  Merged.Displays m = None /\ Merged.Clicks m = None.
Proof.
  intros Hcomplete Hm Hkey.
  destruct (criteo_merge_joined_from _ _ _ _ Hm) as (u & e & g & Hfrom).
  destruct Hfrom as (Hu & _ & _ & Hd & Hc & _).
  destruct u as [ur |]; [| split; assumption].
  exfalso. destruct Hu as [Hur Hk].
  destruct (Hcomplete ur Hur) as (Ha & Hday & Hdev).
  rewrite Hk in Ha, Hday, Hdev. unfold merged_key in Ha, Hday, Hdev.
  simpl in Ha, Hday, Hdev.
  unfold keyed, formatted_key, criteo_format_row, replace in Hkey.
  simpl in Hkey.
  destruct (Merged.Day m); [| congruence].
  destruct (Merged.Device m); [| congruence].
  destruct (Merged.Advertiser m); [| congruence].
  discriminate Hkey.
Qed.

(** When the EUR and GBP frames have at most one row per (Advertiser, Day,
    Device) and every USD row has its three key cells set, the impressions
    and the clicks of the output add up to those of the USD frame: nothing is
    lost and nothing is counted twice. *)
Theorem criteo_counts_conserved (s : Settings) (df_usd : list Usd.row)
  (df_eur : list Eur.row) (df_gbp : list Gbp.row) (out : frame) :
  NoDup (map eur_key df_eur) ->
  NoDup (map gbp_key df_gbp) ->
  (forall r, In r df_usd -> complete_key (usd_key r)) ->
  criteo_merge_and_format_dataframes s df_usd df_eur df_gbp = Some out ->
  total (map impressions out) = sum_Z (map Usd.Displays df_usd)
  /\ total (map clicks out) = sum_Z (map Usd.Clicks df_usd).
Proof.
  intros Heur Hgbp Hcomplete Hout.
  unfold criteo_merge_and_format_dataframes in Hout.
  destruct (advertiser_empty _); [discriminate |].
  injection Hout as <-. unfold criteo_formatted.
  split.
  - rewrite (criteo_total_of_groups Formatted.impressions impressions)
      by reflexivity.
    rewrite sum_Z_filter_none.
    + rewrite map_map. simpl. unfold criteo_merge.
      rewrite (merge_outer_left_sum join_key_dec usd_eur_key gbp_key join_gbp
                 Merged.Displays UsdEur.Displays) by (auto || reflexivity).
      apply (merge_outer_left_sum join_key_dec usd_key eur_key join_usd_eur
               UsdEur.Displays Usd.Displays); auto.
    + intros f Hf Hkey. apply in_map_iff in Hf. destruct Hf as (m & <- & Hm).
      apply (counted_row_is_keyed s _ _ _ _ Hcomplete Hm Hkey).
  - rewrite (criteo_total_of_groups Formatted.clicks clicks) by reflexivity.
    rewrite sum_Z_filter_none.
    + rewrite map_map. simpl. unfold criteo_merge.
      rewrite (merge_outer_left_sum join_key_dec usd_eur_key gbp_key join_gbp
                 Merged.Clicks UsdEur.Clicks) by (auto || reflexivity).
      apply (merge_outer_left_sum join_key_dec usd_key eur_key join_usd_eur
               UsdEur.Clicks Usd.Clicks); auto.
    + intros f Hf Hkey. apply in_map_iff in Hf. destruct Hf as (m & <- & Hm).
      apply (counted_row_is_keyed s _ _ _ _ Hcomplete Hm Hkey).
Qed.

(** ** What an output row is made of *)

Lemma str_max_same (s : string) : str_max s s = s.
Proof. unfold str_max. destruct (String.leb s s); reflexivity. Qed.

Lemma max_str_constant {A : Type} (f : A -> option string) (s : string)
  (g : list A) :
  g <> [] -> (forall r, In r g -> f r = Some s) -> max_str (map f g) = Some s.
Proof.
  induction g as [| r g IH]; intros Hne Hall; [congruence |].
  simpl. rewrite (Hall r (or_introl eq_refl)).
  destruct g as [| r' g'].
  - reflexivity.
  - rewrite IH; [now rewrite str_max_same | discriminate |].
    intros r0 Hr0. apply Hall. now right.
Qed.

Lemma criteo_output_row (s : Settings) (df_usd : list Usd.row)
  (df_eur : list Eur.row) (df_gbp : list Gbp.row) (out : frame) (o : CostRow) :
  criteo_merge_and_format_dataframes s df_usd df_eur df_gbp = Some out ->
  In o out ->
  exists k g,
    o = round_costs (criteo_agg k g)
    /\ g = group criteo_key_dec formatted_key
             (criteo_formatted s df_usd df_eur df_gbp) k
    /\ g <> []
    /\ exists m, In m (criteo_merge df_usd df_eur df_gbp)
                 /\ formatted_key (criteo_format_row s m) = Some k.
Proof.
  intros Hout Ho. unfold criteo_merge_and_format_dataframes in Hout.
  destruct (advertiser_empty _); [discriminate |].
  injection Hout as <-.
  apply in_map_iff in Ho. destruct Ho as (o' & <- & Ho').
  unfold criteo_groupby in Ho'. apply groupby_In in Ho'.
  destruct Ho' as (k & Hk & ->).
  exists k, (group criteo_key_dec formatted_key
               (criteo_formatted s df_usd df_eur df_gbp) k).
  split; [reflexivity |]. split; [reflexivity |].
  split; [exact (group_nonempty _ _ _ _ _ Hk) |].
  apply group_keys_In in Hk. destruct Hk as (r & Hr & Hkey).
  unfold criteo_formatted in Hr. apply in_map_iff in Hr.
  destruct Hr as (m & <- & Hm). now exists m.
Qed.

Lemma criteo_output_source (s : Settings) (df_usd : list Usd.row)
  (df_eur : list Eur.row) (df_gbp : list Gbp.row) (out : frame) (o : CostRow) :
  criteo_merge_and_format_dataframes s df_usd df_eur df_gbp = Some out ->
  In o out ->
  engine o = "Criteo" /\ channel o = "Retargeting"
  /\ exists m, In m (criteo_merge df_usd df_eur df_gbp)
               /\ Merged.Day m = Some (date o)
               /\ replace criteo_device_map (Merged.Device m) = Some (device o)
               /\ replace (CRITEO_MARKET_REPLACEMENTS s) (Merged.Advertiser m)
                  = Some (majormarket o).
Proof.
  intros Hout Ho.
  destruct (@criteo_output_row _ _ _ _ _ _ Hout Ho)
    as (k & g & -> & Hg & Hne & m & Hm & Hkey).
  assert (Hrows : forall r, In r g -> Formatted.engine r = Some "Criteo").
  { intros r Hr. rewrite Hg in Hr. apply group_In in Hr.
    destruct Hr as [Hr _]. unfold criteo_formatted in Hr.
    apply in_map_iff in Hr. destruct Hr as (m' & <- & _). reflexivity. }
  unfold formatted_key, criteo_format_row in Hkey. simpl in Hkey.
  destruct (Merged.Day m) as [d |] eqn:Hd; [| discriminate].
  destruct (replace criteo_device_map (Merged.Device m)) as [dev |] eqn:Hdev;
    [| discriminate].
  destruct (replace (CRITEO_MARKET_REPLACEMENTS s) (Merged.Advertiser m))
    as [mk |] eqn:Hmk; [| discriminate].
  injection Hkey as <-. simpl.
  rewrite (max_str_constant Formatted.engine Hne Hrows). simpl.
  split; [reflexivity |]. split; [reflexivity |].
  exists m. rewrite Hd, Hdev, Hmk. auto.
Qed.

Lemma kelkoo_output_source (usd_rate : Q) (kelkoo_df : list (Json.row string))
  (o : CostRow) :
  In o (kelkoo_format_and_group usd_rate kelkoo_df) ->
  engine o = "Kelkoo" /\ majormarket o = "UK" /\ channel o = "Affiliate"
  /\ impressions o = 0
  /\ exists j, In j kelkoo_df
               /\ date o = Json.date j
               /\ replace kelkoo_device_map (Json.deviceType j)
                  = Some (device o).
Proof.
  intros Ho. unfold kelkoo_format_and_group in Ho.
  apply in_map_iff in Ho. destruct Ho as (g & <- & Hg).
  unfold kelkoo_groupby in Hg. apply groupby_In in Hg.
  destruct Hg as (k & Hk & ->).
  apply group_keys_In in Hk. destruct Hk as (row & Hrow & Hkey).
  apply in_map_iff in Hrow. destruct Hrow as (j & <- & Hj).
  unfold kelkoo_row_key, kelkoo_format_row in Hkey. simpl in Hkey.
  destruct (replace kelkoo_device_map (Json.deviceType j)) as [dev |] eqn:Hdev;
    [| discriminate].
  injection Hkey as <-. simpl.
  repeat split. exists j. auto.
Qed.

(** A joined row has the key of a row of one of the three frames. *)
Lemma criteo_merge_key_source (df_usd : list Usd.row) (df_eur : list Eur.row)
  (df_gbp : list Gbp.row) (m : Merged.row) :
  In m (criteo_merge df_usd df_eur df_gbp) ->
  (exists r, In r df_usd /\ usd_key r = merged_key m)
  \/ (exists r, In r df_eur /\ eur_key r = merged_key m)
  \/ (exists r, In r df_gbp /\ gbp_key r = merged_key m).
Proof.
  unfold criteo_merge. intros Hm. apply merge_outer_In in Hm.
  destruct Hm as (k & ue & g & -> & Hue & Hg & Hsome).
  destruct k as [adv [day dev]]. unfold merged_key. simpl.
  destruct g as [gr |].
  - right. right. exists gr. exact Hg.
  - destruct ue as [r |]; [| destruct Hsome; congruence].
    destruct Hue as [Hr Hk]. apply merge_outer_In in Hr.
    destruct Hr as (k' & u & e & -> & Hu & He & Hsome').
    destruct k' as [adv' [day' dev']].
    unfold usd_eur_key in Hk. simpl in Hk. injection Hk as -> -> ->.
    destruct u as [ur |].
    + left. exists ur. exact Hu.
    + destruct e as [er |]; [| destruct Hsome'; congruence].
      right. left. exists er. exact He.
Qed.

(** Every row the Criteo normalizer returns is tagged engine Criteo and
    channel Retargeting, and its date, device and market are the Day, the
    mapped Device and the mapped Advertiser of a row of the joined frame.
    Every row the Kelkoo normalizer returns is tagged engine Kelkoo, market
    UK and channel Affiliate, and has 0 impressions. *)
Theorem output_rows_are_tagged :
  (forall (s : Settings) (df_usd : list Usd.row) (df_eur : list Eur.row)
          (df_gbp : list Gbp.row) (out : frame) (o : CostRow),
      criteo_merge_and_format_dataframes s df_usd df_eur df_gbp = Some out ->
      In o out ->
      engine o = "Criteo" /\ channel o = "Retargeting"
      /\ exists m, In m (criteo_merge df_usd df_eur df_gbp)
                   /\ Merged.Day m = Some (date o)
                   /\ replace criteo_device_map (Merged.Device m)
                      = Some (device o)
                   /\ replace (CRITEO_MARKET_REPLACEMENTS s) (Merged.Advertiser m)
                      = Some (majormarket o))
  /\ (forall (usd_rate : Q) (kelkoo_df : list (Json.row string)) (o : CostRow),
         In o (kelkoo_format_and_group usd_rate kelkoo_df) ->
         engine o = "Kelkoo" /\ majormarket o = "UK" /\ channel o = "Affiliate"
         /\ impressions o = 0
         /\ exists j, In j kelkoo_df
                      /\ date o = Json.date j
                      /\ replace kelkoo_device_map (Json.deviceType j)
                         = Some (device o)).
Proof.
  split.
  - intros s df_usd df_eur df_gbp out o Hout Ho.
    exact (@criteo_output_source _ _ _ _ _ _ Hout Ho).
  - intros usd_rate kelkoo_df o Ho.
    exact (@kelkoo_output_source _ _ _ Ho).
Qed.

Lemma replace_known_canonical (d : dict) (c : option string) (v : string) :
  d = criteo_device_map \/ d = kelkoo_device_map ->
  (forall label, c = Some label -> In label (dict_keys d)) ->
  replace d c = Some v -> In v canonical_devices.
Proof.
  intros Hd Hknown Hv. destruct c as [label |]; [| discriminate].
  simpl in Hv. injection Hv as <-.
  destruct (dict_key_get d label (Hknown label eq_refl)) as [w Hw].
  unfold replace_value. rewrite Hw.
  eapply device_range_canonical; [exact Hd |].
  eapply dict_get_key_range, Hw.
Qed.

(** When every Device label of the three reports is one the Criteo table
    knows, every device of the Criteo output is one of desktop, tablet,
    mobile, unknown; the same for the Kelkoo payload and the Kelkoo table. *)
Theorem output_devices_canonical_when_known :
  (forall (s : Settings) (df_usd : list Usd.row) (df_eur : list Eur.row)
          (df_gbp : list Gbp.row) (out : frame) (o : CostRow),
      (forall r label, In r df_usd -> Usd.Device r = Some label ->
                       In label (dict_keys criteo_device_map)) ->
      (forall r label, In r df_eur -> Eur.Device r = Some label ->
                       In label (dict_keys criteo_device_map)) ->
      (forall r label, In r df_gbp -> Gbp.Device r = Some label ->
                       In label (dict_keys criteo_device_map)) ->
      criteo_merge_and_format_dataframes s df_usd df_eur df_gbp = Some out ->
      In o out -> In (device o) canonical_devices)
  /\ (forall (usd_rate : Q) (kelkoo_df : list (Json.row string)) (o : CostRow),
         (forall j label, In j kelkoo_df -> Json.deviceType j = Some label ->
                          In label (dict_keys kelkoo_device_map)) ->
         In o (kelkoo_format_and_group usd_rate kelkoo_df) ->
         In (device o) canonical_devices).
Proof.
  split.
  - intros s df_usd df_eur df_gbp out o Husd Heur Hgbp Hout Ho.
    destruct (@criteo_output_source _ _ _ _ _ _ Hout Ho)
      as (_ & _ & m & Hm & _ & Hdev & _).
    eapply replace_known_canonical; [left; reflexivity | | exact Hdev].
    intros label Hlabel.
    destruct (criteo_merge_key_source _ _ _ _ Hm)
      as [(r & Hr & Hk) | [(r & Hr & Hk) | (r & Hr & Hk)]];
      unfold merged_key in Hk; injection Hk as _ _ Hd;
      rewrite Hlabel in Hd; eauto.
  - intros usd_rate kelkoo_df o Hknown Ho.
    destruct (@kelkoo_output_source _ _ _ Ho)
      as (_ & _ & _ & _ & j & Hj & _ & Hdev).
    eapply replace_known_canonical; [right; reflexivity | | exact Hdev].
    intros label Hlabel. eauto.
Qed.

(** ** Order and uniqueness of the output rows *)

(** The rows of either normalizer come in increasing order of their group
    key, compared column by column as text, with no key twice. *)
Theorem outputs_ordered_by_key :
  (forall (s : Settings) (df_usd : list Usd.row) (df_eur : list Eur.row)
          (df_gbp : list Gbp.row) (out : frame),
      criteo_merge_and_format_dataframes s df_usd df_eur df_gbp = Some out ->
      StronglySorted criteo_key_le (map criteo_row_key out)
      /\ NoDup (map criteo_row_key out))
  /\ (forall (usd_rate : Q) (kelkoo_df : list (Json.row string)),
         StronglySorted kelkoo_key_le
           (map kelkoo_row_out_key (kelkoo_format_and_group usd_rate kelkoo_df))
         /\ NoDup (map kelkoo_row_out_key
                     (kelkoo_format_and_group usd_rate kelkoo_df))).
Proof.
  split.
  - intros s df_usd df_eur df_gbp out Hout.
    unfold criteo_merge_and_format_dataframes in Hout.
    destruct (advertiser_empty _); [discriminate |].
    injection Hout as <-. rewrite criteo_out_keys. split.
    + apply sort_keys_sorted;
        [apply criteo_key_leb_total | apply criteo_key_leb_trans].
    + apply group_keys_NoDup.
  - intros usd_rate kelkoo_df. unfold kelkoo_format_and_group.
    rewrite kelkoo_out_keys. split.
    + apply sort_keys_sorted;
        [apply kelkoo_key_leb_total | apply kelkoo_key_leb_trans].
    + apply group_keys_NoDup.
Qed.

(** The Kelkoo frame is empty exactly when no record has a device type. *)
Theorem kelkoo_frame_empty_iff (usd_rate : Q) (kelkoo_df : list (Json.row string)) :
  kelkoo_format_and_group usd_rate kelkoo_df = []
  <-> forall j, In j kelkoo_df -> Json.deviceType j = None.
Proof.
  split.
  - intros Hempty j Hj.
    destruct (Json.deviceType j) as [label |] eqn:Hdev; [| reflexivity].
    exfalso.
    assert (Hk : In (Json.date j, replace_value kelkoo_device_map label)
                   (group_keys kelkoo_key_dec kelkoo_key_leb kelkoo_row_key
                      (map kelkoo_format_row kelkoo_df))).
    { apply group_keys_In. exists (kelkoo_format_row j).
      split; [now apply in_map |].
      unfold kelkoo_row_key, kelkoo_format_row. simpl. now rewrite Hdev. }
    rewrite <- (kelkoo_out_keys usd_rate) in Hk.
    fold (kelkoo_format_and_group usd_rate kelkoo_df) in Hk.
    rewrite Hempty in Hk. exact Hk.
  - intros Hnone.
    destruct (kelkoo_format_and_group usd_rate kelkoo_df) as [| o out] eqn:Hout;
      [reflexivity |].
    exfalso.
    assert (Ho : In o (kelkoo_format_and_group usd_rate kelkoo_df))
      by (rewrite Hout; now left).
    destruct (@kelkoo_output_source _ _ _ Ho)
      as (_ & _ & _ & _ & j & Hj & _ & Hdev).
    rewrite (Hnone j Hj) in Hdev. discriminate.
Qed.

Lemma kelkoo_full_keys_NoDup (usd_rate : Q) (kelkoo_df : list (Json.row string)) :
  NoDup (map criteo_row_key (kelkoo_format_and_group usd_rate kelkoo_df)).
Proof.
  assert (Hkeys : map criteo_row_key (kelkoo_format_and_group usd_rate kelkoo_df)
                  = map (fun k : kelkoo_key => (fst k, (snd k, ("UK", "Affiliate"))))
                      (map kelkoo_row_out_key
                         (kelkoo_format_and_group usd_rate kelkoo_df))).
  { rewrite map_map. apply map_ext_in. intros o Ho.
    destruct (@kelkoo_output_source _ _ _ Ho) as (_ & Hm & Hc & _).
    unfold criteo_row_key, kelkoo_row_out_key. simpl. now rewrite Hm, Hc. }
  rewrite Hkeys. apply NoDup_map_NoDup_ForallPairs.
  - intros [d1 dev1] [d2 dev2] _ _ Heq. simpl in Heq. congruence.
  - unfold kelkoo_format_and_group. rewrite kelkoo_out_keys.
    apply group_keys_NoDup.
Qed.

(** In the merged frame no two rows have the same (date, device,
    majormarket, channel): each normalizer returns one row per key, and a
    Criteo row (channel Retargeting) and a Kelkoo row (channel Affiliate)
    never share one. *)
Theorem merged_frame_unique_keys (s : Settings) (df_usd : list Usd.row)
  (df_eur : list Eur.row) (df_gbp : list Gbp.row) (usd_rate : Q)
  (kelkoo_df : option (list (Json.row string))) (w w' : world)
  (merged : frame) :
  merge_dataframes
    (criteo_merge_and_format_dataframes s df_usd df_eur df_gbp)
    (option_map (kelkoo_format_and_group usd_rate) kelkoo_df) w
  = (inr merged, w') ->
  NoDup (map criteo_row_key merged).
Proof.
  destruct (criteo_merge_and_format_dataframes s df_usd df_eur df_gbp)
    as [c |] eqn:Hc;
    destruct kelkoo_df as [kdf |]; simpl; intros Hmerge;
    try (injection Hmerge as <- _).
  - rewrite map_app. apply NoDup_app.
    + unfold criteo_merge_and_format_dataframes in Hc.
      destruct (advertiser_empty _); [discriminate |].
      injection Hc as <-. rewrite criteo_out_keys. apply group_keys_NoDup.
    + apply kelkoo_full_keys_NoDup.
    + intros k Hk1 Hk2.
      apply in_map_iff in Hk1. destruct Hk1 as (o1 & <- & Ho1).
      apply in_map_iff in Hk2. destruct Hk2 as (o2 & Heq & Ho2).
      destruct (@criteo_output_source _ _ _ _ _ _ Hc Ho1) as (_ & Hch1 & _).
      destruct (@kelkoo_output_source _ _ _ Ho2) as (_ & _ & Hch2 & _).
      unfold criteo_row_key in Heq. injection Heq as _ _ _ Hch.
      rewrite Hch1, Hch2 in Hch. discriminate.
  - unfold criteo_merge_and_format_dataframes in Hc.
    destruct (advertiser_empty _); [discriminate |].
    injection Hc as <-. rewrite criteo_out_keys. apply group_keys_NoDup.
  - apply kelkoo_full_keys_NoDup.
  - unfold merge_dataframes, bind, print, sys_exit, raise in Hmerge.
    discriminate.
Qed.

(** ** Rounding *)





(** ** What a run prints and which worksheet calls it makes *)

Lemma prints_ret {A : Type} (a : A) : prints [] (ret a).
Proof. intros w. simpl. now rewrite app_nil_r. Qed.

Lemma prints_lift {A : Type} (r : result A) : prints [] (lift r).
Proof.
  intros w. unfold lift. simpl. destruct r; [now left | now rewrite app_nil_r].
Qed.

Lemma prints_raise {A : Type} (on_success : list string) (ex : exn) :
  prints on_success (@raise A ex).
Proof. intros w. simpl. now left. Qed.

Lemma prints_print (line : string) : prints [line] (print line).
Proof. intros w. reflexivity. Qed.

Lemma prints_worksheet_call (c : gsheet_call) (answer : result unit) :
  prints [] (worksheet_call c answer).
Proof.
  intros w. unfold worksheet_call. simpl.
  destruct answer; [now left | now rewrite app_nil_r].
Qed.

Lemma prints_line_then_raise {A : Type} (on_success : list string)
  (line : string) (ex : exn) :
  failure_line_of ex line ->
  prints on_success (print line ;;; @raise A ex).
Proof. intros Hline w. simpl. right. now exists line. Qed.

Lemma prints_bind {A B : Type} (on_success : list string) (m : proc A)
  (f : A -> proc B) :
  prints [] m -> (forall a, prints on_success (f a)) ->
  prints on_success (bind m f).
Proof.
  intros Hm Hf w. specialize (Hm w). unfold bind.
  destruct (m w) as [[ex | a] w1]; simpl in *.
  - exact Hm.
  - rewrite app_nil_r in Hm. specialize (Hf a w1). rewrite Hm in Hf. exact Hf.
Qed.

Lemma prints_criteo_get_auth (e : env) : prints [] (criteo_get_auth e).
Proof.
  intros w. unfold criteo_get_auth, try_except, lift, bind, print, raise.
  destruct (criteo_token e) as [[code | name] | token]; simpl.
  - now left.
  - right. exists criteo_failure_line. split; [| reflexivity].
    left. split; [reflexivity | now exists name].
  - now rewrite app_nil_r.
Qed.

Ltac prints_steps :=
  repeat first
    [ apply prints_ret
    | apply prints_lift
    | apply prints_raise
    | apply prints_worksheet_call
    | apply prints_criteo_get_auth
    | apply prints_print
    | apply prints_line_then_raise;
      [ first [ right; left; split; reflexivity
              | right; right; split; reflexivity ] ]
    | apply prints_bind; [| intros ]
    | match goal with
      | |- prints _ (if ?b then _ else _) => destruct b
      | |- prints _ (match ?x with _ => _ end) => destruct x
      end ].

Lemma prints_criteo_build (e : env) : prints [] (criteo_build_final_dataframe e).
Proof.
  unfold criteo_build_final_dataframe, criteo_get_csv, criteo_create_dataframes.
  prints_steps.
Qed.

Lemma prints_kelkoo_build (e : env) : prints [] (kelkoo_build_final_dataframe e).
Proof.
  unfold kelkoo_build_final_dataframe, fixer_get_conversion_rate,
    kelkoo_format_and_group_dataframe, kelkoo_create_dataframe,
    kelkoo_get_json, sys_exit.
  prints_steps.
Qed.

Lemma prints_merge (criteo_df kelkoo_df : option frame) :
  prints [] (merge_dataframes criteo_df kelkoo_df).
Proof. unfold merge_dataframes, sys_exit. prints_steps. Qed.

(** A run that succeeds has printed the confirmation line and nothing else.
    A run that fails has printed nothing, or one failure line and nothing
    else: the Criteo line when it ends with an exception, the Kelkoo or the
    no-data line when it ends by [sys.exit()]; it never prints the
    confirmation. *)
Theorem run_prints_one_line (e : env) (w : world) :
  match fst (sheet_upload e w) with
  | inr _ => stdout (snd (sheet_upload e w)) = (stdout w ++ [finished_line])%list
  | inl ex =>
      stdout (snd (sheet_upload e w)) = stdout w
      \/ exists line,
           failure_line_of ex line
           /\ line <> finished_line
           /\ stdout (snd (sheet_upload e w)) = (stdout w ++ [line])%list
  end.
Proof.
  assert (Hrun : prints [finished_line] (sheet_upload e)).
  { unfold sheet_upload.
    apply prints_bind; [apply prints_criteo_build | intros c].
    apply prints_bind; [apply prints_kelkoo_build | intros k].
    apply prints_bind; [apply prints_merge | intros df].
    unfold prep_sheet, gsheet_upload, finished_line. prints_steps. }
  specialize (Hrun w).
  destruct (fst (sheet_upload e w)) as [ex | u]; [| exact Hrun].
  destruct Hrun as [Hsilent | (line & Hline & Hout)]; [now left |].
  right. exists line. split; [exact Hline |]. split; [| exact Hout].
  destruct Hline as [[-> _] | [[-> _] | [-> _]]]; discriminate.
Qed.

Lemma update_block_width (df : frame) (row : list cell) :
  In row (columns :: map tolist df) -> List.length row = 10%nat.
Proof.
  intros [<- | Hrow]; [reflexivity |].
  apply in_map_iff in Hrow. destruct Hrow as (r & <- & _). reflexivity.
Qed.

(** A run issues no worksheet call, or the clear of A:J alone, or the clear
    followed by one update; never an update without the clear before it.
    The update carries the header and the rows of the merged frame, every
    row ten cells wide, to be entered as typed by a user; a run that succeeds
    has issued both calls. *)
Theorem run_worksheet_calls (e : env) (w : world) :
  exists calls,
    gsheet_calls (snd (sheet_upload e w)) = (gsheet_calls w ++ calls)%list
    /\ (calls = []
        \/ (calls = [clear_call]
            /\ exists df w1, fetch_and_merge e w = (inr df, w1))
        \/ exists df w1,
             calls = [clear_call; update_call df]
             /\ fetch_and_merge e w = (inr df, w1)
             /\ forall row, In row (columns :: map tolist df) ->
                            List.length row = 10%nat)
    /\ (forall u, fst (sheet_upload e w) = inr u ->
          exists df, calls = [clear_call; update_call df]).
Proof.
  pose proof (sheet_upload_steps e w) as Hsteps. unfold bind at 1 in Hsteps.
  pose proof (fetch_and_merge_untouched e w) as Hquiet.
  destruct (fetch_and_merge e w) as [[ex | df] w1]; simpl in Hquiet.
  - rewrite Hsteps. exists []. simpl. rewrite app_nil_r.
    split; [exact Hquiet |]. split; [now left | intros u Hu; discriminate Hu].
  - unfold prep_sheet, gsheet_upload, worksheet_call, bind, lift, ret, print
      in Hsteps.
    destruct (gspread_open e) as [ex | []]; simpl in Hsteps.
    { rewrite Hsteps. exists []. simpl. rewrite app_nil_r.
      split; [exact Hquiet |]. split; [now left | intros u Hu; discriminate Hu]. }
    destruct (gspread_batch_clear e) as [ex | []]; simpl in Hsteps.
    { rewrite Hsteps. exists [clear_call]. simpl. rewrite Hquiet.
      split; [reflexivity |]. split; [| intros u Hu; discriminate Hu].
      right. left. split; [reflexivity |]. now exists df, w1. }
    exists [clear_call; update_call df].
    split.
    { rewrite Hsteps. destruct (gspread_update e) as [ex | []]; simpl;
        rewrite <- app_assoc, Hquiet; reflexivity. }
    split.
    + right. right. exists df, w1. split; [reflexivity |].
      split; [reflexivity | apply update_block_width].
    + intros _ _. now exists df.
Qed.

(** When both normalizers answer, at least one of them with a frame, and the
    worksheet answers, the run succeeds: it clears A:J and writes the header
    followed by the Criteo rows and then the Kelkoo rows, an absent frame
    contributing none, and prints the confirmation. *)
Theorem upload_of_partial_data (e : env) (w w1 w2 : world)
  (criteo_df kelkoo_df : option frame) :
  criteo_build_final_dataframe e w = (inr criteo_df, w1) ->
  kelkoo_build_final_dataframe e w1 = (inr kelkoo_df, w2) ->
  criteo_df <> None \/ kelkoo_df <> None ->
  gspread_open e = inr tt ->
  gspread_batch_clear e = inr tt ->
  gspread_update e = inr tt ->
  sheet_upload e w
  = (inr tt,
     {| stdout := stdout w2 ++ [finished_line];
        gsheet_calls :=
          gsheet_calls w2 ++
          [clear_call;
           update_call (frame_rows criteo_df ++ frame_rows kelkoo_df)%list] |}).
Proof.
  intros Hc Hk Hsome Hopen Hclear Hupdate.
  unfold sheet_upload, bind at 1. rewrite Hc.
  unfold bind at 1. rewrite Hk.
  unfold prep_sheet, gsheet_upload, worksheet_call, bind, lift, ret, print.
  rewrite Hopen, Hclear, Hupdate.
  destruct criteo_df as [c |], kelkoo_df as [k |]; simpl;
    rewrite <- ?app_assoc, ?app_nil_r; try reflexivity.
  destruct Hsome; congruence.
Qed.

(** The Criteo normalizer prints its failure line exactly when the token
    request raises an exception, and it then ends with that exception; every
    other failure of its requests and parsers passes through unreported. *)
Theorem criteo_line_iff_token_exception (e : env) (w : world) :
  ((exists name, criteo_token e = inl (Exception name))
   <-> stdout (snd (criteo_build_final_dataframe e w))
       = (stdout w ++ [criteo_failure_line])%list)
  /\ ((forall name, criteo_token e <> inl (Exception name))
      -> stdout (snd (criteo_build_final_dataframe e w)) = stdout w)
  /\ (forall ex, criteo_token e = inl ex ->
        fst (criteo_build_final_dataframe e w) = inl ex).
Proof.
  assert (Hne : stdout w <> (stdout w ++ [criteo_failure_line])%list).
  { intros Heq. apply (f_equal (@List.length string)) in Heq.
    rewrite length_app in Heq. simpl in Heq. lia. }
  assert (Hquiet : forall token, criteo_token e = inr token ->
             stdout (snd (criteo_build_final_dataframe e w)) = stdout w).
  { intros token Htok.
    unfold criteo_build_final_dataframe, criteo_get_auth, criteo_get_csv,
      criteo_create_dataframes, try_except, bind, lift, ret.
    rewrite Htok.
    repeat match goal with
           | |- context [match ?x with _ => _ end] =>
               lazymatch x with
               | context [match _ with _ => _ end] => fail
               | _ => destruct x; simpl
               end
           end; reflexivity. }
  destruct (criteo_token e) as [[code | name] | token] eqn:Htok.
  - assert (Hrun : criteo_build_final_dataframe e w = (inl (SystemExit code), w)).
    { unfold criteo_build_final_dataframe, criteo_get_auth, try_except,
        bind, lift. rewrite Htok. reflexivity. }
    rewrite Hrun. simpl. split; [| split].
    + split; [intros [name Hname]; discriminate | intros Heq; now apply Hne in Heq].
    + reflexivity.
    + intros ex [= <-]. reflexivity.
  - assert (Hrun : criteo_build_final_dataframe e w
                   = (inl (Exception name),
                      {| stdout := stdout w ++ [criteo_failure_line];
                         gsheet_calls := gsheet_calls w |})).
    { unfold criteo_build_final_dataframe, criteo_get_auth, try_except,
        bind, lift, print, raise. rewrite Htok. reflexivity. }
    rewrite Hrun. simpl. split; [| split].
    + split; [reflexivity | intros _; now exists name].
    + intros Hno. exfalso. now apply (Hno name).
    + intros ex [= <-]. reflexivity.
  - split; [| split].
    + rewrite (Hquiet token eq_refl).
      split; [intros [name Hname]; discriminate | intros Heq; now apply Hne in Heq].
    + intros _. apply (Hquiet token eq_refl).
    + intros ex Hex. discriminate.
Qed.

(** The rate is requested before the statistics: when the rate request
    fails, the Kelkoo normalizer fails with its exception whatever the
    statistics endpoint would answer, the no-data body included.  With a
    rate, any status other than 200 prints the Kelkoo failure line and ends
    by [sys.exit()], the body unread. *)
Theorem kelkoo_build_failures (e : env) (w : world) :
  (forall ex, fixer_rate e = inl ex ->
      kelkoo_build_final_dataframe e w = (inl ex, w))
  /\ (forall rate status body,
         fixer_rate e = inr rate -> kelkoo_get e = inr (status, body) ->
         status <> 200 ->
         kelkoo_build_final_dataframe e w
         = (inl (SystemExit None),
            {| stdout := stdout w ++ [kelkoo_failure_line];
               gsheet_calls := gsheet_calls w |}))
  /\ (forall rate, fixer_rate e = inr rate -> kelkoo_get e = inr (200, "[]") ->
         kelkoo_build_final_dataframe e w = (inr None, w)).
Proof.
  unfold kelkoo_build_final_dataframe, fixer_get_conversion_rate,
    kelkoo_format_and_group_dataframe, kelkoo_create_dataframe.
  split; [| split].
  - intros ex Hrate. unfold bind at 1, lift. rewrite Hrate. reflexivity.
  - intros rate status body Hrate Hget Hne.
    unfold bind at 1, lift at 1. rewrite Hrate.
    unfold bind. rewrite (kelkoo_get_json_non_200 e w Hget Hne). reflexivity.
  - intros rate Hrate Hget.
    unfold bind at 1, lift at 1. rewrite Hrate.
    unfold bind. rewrite (kelkoo_get_json_200 e w Hget). reflexivity.
Qed.

(** ** No keyed row is dropped *)

Lemma criteo_key_represented (s : Settings) (df_usd : list Usd.row)
  (df_eur : list Eur.row) (df_gbp : list Gbp.row) (out : frame)
  (m : Merged.row) (day label advertiser : string) :
  criteo_merge_and_format_dataframes s df_usd df_eur df_gbp = Some out ->
  In m (criteo_merge df_usd df_eur df_gbp) ->
  merged_key m = (Some advertiser, (Some day, Some label)) ->
  exists o, In o out
            /\ date o = day
            /\ device o = replace_value criteo_device_map label
            /\ majormarket o
               = replace_value (CRITEO_MARKET_REPLACEMENTS s) advertiser.
Proof.
  intros Hout Hm Hkey. unfold merged_key in Hkey. injection Hkey as Ha Hd Hl.
  unfold criteo_merge_and_format_dataframes in Hout.
  destruct (advertiser_empty _); [discriminate |].
  injection Hout as <-.
  set (k := (day, (replace_value criteo_device_map label,
                   (replace_value (CRITEO_MARKET_REPLACEMENTS s) advertiser,
                    "Retargeting"))) : criteo_key).
  assert (Hk : In k (map criteo_row_key
                       (map round_costs
                          (criteo_groupby
                             (criteo_formatted s df_usd df_eur df_gbp))))).
  { rewrite criteo_out_keys. apply group_keys_In.
    exists (criteo_format_row s m). split.
    - unfold criteo_formatted. now apply in_map.
    - unfold formatted_key, criteo_format_row. simpl.
      rewrite Ha, Hd, Hl. reflexivity. }
  apply in_map_iff in Hk. destruct Hk as (o & Hko & Ho).
  exists o. split; [exact Ho |].
  unfold criteo_row_key, k in Hko. injection Hko as -> -> -> _. auto.
Qed.

(** Every row of the three reports whose Advertiser, Day and Device are set
    has a row in the Criteo output with its day, its mapped device and its
    mapped market; every Kelkoo record with a device type has a row in the
    Kelkoo output with its date and its mapped device. *)
Theorem keyed_rows_are_represented :
  (forall (s : Settings) (df_usd : list Usd.row) (df_eur : list Eur.row)
          (df_gbp : list Gbp.row) (out : frame) (day label advertiser : string),
      criteo_merge_and_format_dataframes s df_usd df_eur df_gbp = Some out ->
      (exists r, In r df_usd
                 /\ usd_key r = (Some advertiser, (Some day, Some label)))
      \/ (exists r, In r df_eur
                    /\ eur_key r = (Some advertiser, (Some day, Some label)))
      \/ (exists r, In r df_gbp
                    /\ gbp_key r = (Some advertiser, (Some day, Some label))) ->
      exists o, In o out
                /\ date o = day
                /\ device o = replace_value criteo_device_map label
                /\ majormarket o
                   = replace_value (CRITEO_MARKET_REPLACEMENTS s) advertiser)
  /\ (forall (usd_rate : Q) (kelkoo_df : list (Json.row string))
             (j : Json.row string) (label : string),
         In j kelkoo_df -> Json.deviceType j = Some label ->
         exists o, In o (kelkoo_format_and_group usd_rate kelkoo_df)
                   /\ date o = Json.date j
                   /\ device o = replace_value kelkoo_device_map label).
Proof.
  split.
  - intros s df_usd df_eur df_gbp out day label advertiser Hout Hsrc.
    assert (Hm : exists m, In m (criteo_merge df_usd df_eur df_gbp)
                           /\ merged_key m
                              = (Some advertiser, (Some day, Some label))).
    { unfold criteo_merge.
      destruct Hsrc as [(r & Hr & Hk) | [(r & Hr & Hk) | (r & Hr & Hk)]].
      - destruct (merge_outer_left_kept join_key_dec usd_key eur_key
                    join_usd_eur df_usd df_eur r Hr) as [y Hy].
        destruct (merge_outer_left_kept join_key_dec usd_eur_key gbp_key
                    join_gbp _ df_gbp _ Hy) as [g Hg].
        eexists. split; [exact Hg |]. unfold merged_key. simpl.
        rewrite <- Hk. unfold usd_key. reflexivity.
      - destruct (merge_outer_right_kept join_key_dec usd_key eur_key
                    join_usd_eur df_usd df_eur r Hr) as [x Hx].
        destruct (merge_outer_left_kept join_key_dec usd_eur_key gbp_key
                    join_gbp _ df_gbp _ Hx) as [g Hg].
        eexists. split; [exact Hg |]. unfold merged_key. simpl.
        rewrite <- Hk. unfold eur_key. reflexivity.
      - destruct (merge_outer_right_kept join_key_dec usd_eur_key gbp_key
                    join_gbp
                    (merge_outer join_key_dec usd_key eur_key join_usd_eur
                       df_usd df_eur) df_gbp r Hr) as [x Hx].
        eexists. split; [exact Hx |]. unfold merged_key. simpl.
        rewrite <- Hk. unfold gbp_key. reflexivity. }
    destruct Hm as (m & Hm & Hkey).
    exact (criteo_key_represented _ _ _ _ Hout Hm Hkey).
  - intros usd_rate kelkoo_df j label Hj Hdev.
    assert (Hk : In (Json.date j, replace_value kelkoo_device_map label)
                   (map kelkoo_row_out_key
                      (kelkoo_format_and_group usd_rate kelkoo_df))).
    { unfold kelkoo_format_and_group. rewrite kelkoo_out_keys.
      apply group_keys_In. exists (kelkoo_format_row j).
      split; [now apply in_map |].
      unfold kelkoo_row_key, kelkoo_format_row. simpl. now rewrite Hdev. }
    apply in_map_iff in Hk. destruct Hk as (o & Hko & Ho).
    exists o. split; [exact Ho |].
    unfold kelkoo_row_out_key in Hko. injection Hko as -> ->. auto.
Qed.

(** ** From the reports to the Criteo frame *)

(** When the token and the three reports arrive and parse, the Criteo
    normalizer is applied to the USD report as the USD frame, the EUR report
    as the EUR frame and the GBP report as the GBP frame (the GBP report is
    requested before the EUR one, the frames are built USD, EUR, GBP); rows
    without a Device are gone from all three, and nothing is printed. *)
Theorem criteo_build_from_reports (e : env) (w : world) (token : string)
  (stats_usd stats_gbp stats_eur : string)
  (parsed_usd parsed_gbp parsed_eur : list Csv.row) :
  criteo_token e = inr token ->
  criteo_report e usd_edits = inr stats_usd ->
  criteo_report e (gbp_edits (settings e)) = inr stats_gbp ->
  criteo_report e (eur_edits (settings e)) = inr stats_eur ->
  read_csv e stats_usd = inr parsed_usd ->
  read_csv e stats_eur = inr parsed_eur ->
  read_csv e stats_gbp = inr parsed_gbp ->
  let df_usd := criteo_create_frame columns_usd parsed_usd in
  let df_eur := criteo_create_frame columns_eur parsed_eur in
  let df_gbp := criteo_create_frame columns_gbp parsed_gbp in
  criteo_build_final_dataframe e w
  = (inr (criteo_merge_and_format_dataframes (settings e) df_usd df_eur df_gbp),
     w)
  /\ (forall r, In r df_usd -> Usd.Device r <> None)
  /\ (forall r, In r df_eur -> Eur.Device r <> None)
  /\ (forall r, In r df_gbp -> Gbp.Device r <> None)
  /\ (forall r, In r parsed_usd -> Csv.Device r <> None ->
                In (columns_usd r) df_usd).
Proof.
  intros Htok Husd Hgbp Heur Hpu Hpe Hpg df_usd df_eur df_gbp.
  assert (Hset : forall (T : Type) (cols : Csv.row -> T) (dev : T -> option string)
                        (parsed : list Csv.row) (r : T),
             (forall c, dev (cols c) = Csv.Device c) ->
             In r (criteo_create_frame cols parsed) -> dev r <> None).
  { intros T cols dev parsed r Hdev Hr. unfold criteo_create_frame in Hr.
    apply in_map_iff in Hr. destruct Hr as (c & <- & Hc).
    apply filter_In in Hc. destruct Hc as [_ Hc]. rewrite Hdev.
    destruct (Csv.Device c); [discriminate | discriminate Hc]. }
  split; [| split; [| split; [| split]]].
  - unfold criteo_build_final_dataframe, criteo_get_auth, criteo_get_csv,
      criteo_create_dataframes, try_except, bind, lift, ret.
    rewrite Htok. fold usd_edits. rewrite Husd.
    fold (gbp_edits (settings e)). rewrite Hgbp.
    fold (eur_edits (settings e)). rewrite Heur.
    rewrite Hpu, Hpe, Hpg. reflexivity.
  - intros r. apply (Hset _ columns_usd Usd.Device). reflexivity.
  - intros r. apply (Hset _ columns_eur Eur.Device). reflexivity.
  - intros r. apply (Hset _ columns_gbp Gbp.Device). reflexivity.
  - intros r Hr Hdev. unfold df_usd, criteo_create_frame.
    apply in_map, filter_In. split; [exact Hr |].
    destruct (Csv.Device r); [reflexivity | congruence].
Qed.

(** ** The properties above on sample inputs *)


Lemma criteo_counts_conserved_witness :
  match criteo_merge_and_format_dataframes no_settings two_usd one_eur [] with
  | Some out => total (map impressions out) = 150 /\ total (map clicks out) = 7
  | None => False
  end.
Proof.
  destruct (criteo_merge_and_format_dataframes no_settings two_usd one_eur [])
    as [out |] eqn:Hout.
  - apply (@criteo_counts_conserved no_settings two_usd one_eur [] out).
    + simpl. constructor; [intros [] | constructor].
    + constructor.
    + intros r Hr. repeat (destruct Hr as [<- | Hr]);
        [| | contradiction]; repeat split; discriminate.
    + exact Hout.
  - vm_compute in Hout. discriminate Hout.
Defined.

Lemma output_rows_are_tagged_witness :
  engine acme_out = "Criteo" /\ channel acme_out = "Retargeting"
  /\ engine numeric_date_out = "Kelkoo".
Proof.
  destruct (proj1 output_rows_are_tagged no_settings
              (criteo_create_frame columns_usd [acme_csv]) [] []
              [acme_out] acme_out)
    as (Hengine & Hchannel & _).
  - vm_compute. reflexivity.
  - now left.
  - destruct (proj2 output_rows_are_tagged (127 # 100)%Q
                [astype_str numeric_date_json] numeric_date_out)
      as (Hkelkoo & _).
    + vm_compute. now left.
    + repeat split; assumption.
Defined.

Lemma output_devices_canonical_when_known_witness :
  In (device acme_out) canonical_devices.
Proof.
  apply (proj1 output_devices_canonical_when_known no_settings
           (criteo_create_frame columns_usd [acme_csv]) [] []
           [acme_out] acme_out).
  - intros r label [<- | []] [= <-]. simpl. tauto.
  - intros r label [].
  - intros r label [].
  - vm_compute. reflexivity.
  - now left.
Defined.

Lemma outputs_ordered_by_key_witness :
  match criteo_merge_and_format_dataframes no_settings two_usd one_eur [] with
  | Some out => map device out = ["desktop"; "tablet"]
                /\ StronglySorted criteo_key_le (map criteo_row_key out)
  | None => False
  end.
Proof.
  destruct (criteo_merge_and_format_dataframes no_settings two_usd one_eur [])
    as [out |] eqn:Hout.
  - split.
    + vm_compute in Hout. injection Hout as <-. reflexivity.
    + apply (proj1 outputs_ordered_by_key no_settings two_usd one_eur [] out Hout).
  - vm_compute in Hout. discriminate Hout.
Defined.

Lemma kelkoo_frame_empty_iff_witness :
  kelkoo_format_and_group (127 # 100)%Q [json_row None] = []
  /\ kelkoo_format_and_group (127 # 100)%Q [json_row (Some "Mobile")] <> [].
Proof.
  split.
  - apply (kelkoo_frame_empty_iff (127 # 100)%Q [json_row None]).
    intros j [<- | []]. reflexivity.
  - intros Hempty.
    pose proof (proj1 (kelkoo_frame_empty_iff (127 # 100)%Q
                         [json_row (Some "Mobile")]) Hempty
                  (json_row (Some "Mobile")) (or_introl eq_refl)) as Hnone.
    discriminate Hnone.
Defined.

Lemma merged_frame_unique_keys_witness :
  NoDup (map criteo_row_key
           (acme_out
            :: kelkoo_format_and_group (127 # 100)%Q [json_row (Some "Desktop")])).
Proof.
  apply (@merged_frame_unique_keys no_settings
           (criteo_create_frame columns_usd [acme_csv]) [] [] (127 # 100)%Q
           (Some [json_row (Some "Desktop")]) initial_world initial_world).
  vm_compute. reflexivity.
Defined.


Lemma run_worksheet_calls_witness :
  exists calls,
    gsheet_calls (snd (sheet_upload env_ok initial_world)) = calls
    /\ exists df, calls = [clear_call; update_call df].
Proof.
  destruct (run_worksheet_calls env_ok initial_world)
    as (calls & Hcalls & _ & Hsuccess).
  exists calls. split; [exact Hcalls |].
  apply (Hsuccess tt). vm_compute. reflexivity.
Defined.

Lemma upload_of_partial_data_witness :
  sheet_upload env_kelkoo_no_data initial_world
  = (inr tt,
     {| stdout := [finished_line];
        gsheet_calls := [clear_call; update_call [acme_out]] |}).
Proof.
  apply (@upload_of_partial_data env_kelkoo_no_data initial_world
           initial_world initial_world (Some [acme_out]) None).
  - vm_compute. reflexivity.
  - vm_compute. reflexivity.
  - left. discriminate.
  - reflexivity.
  - reflexivity.
  - reflexivity.
Defined.

Lemma criteo_line_iff_token_exception_witness :
  stdout (snd (criteo_build_final_dataframe env_auth_fails initial_world))
  = [criteo_failure_line]
  /\ fst (criteo_build_final_dataframe env_auth_fails initial_world)
     = inl (Exception "ConnectionError")
  /\ stdout (snd (criteo_build_final_dataframe env_ok initial_world)) = [].
Proof.
  destruct (criteo_line_iff_token_exception env_auth_fails initial_world)
    as (Hline & _ & Hend).
  destruct (criteo_line_iff_token_exception env_ok initial_world)
    as (_ & Hquiet & _).
  split; [| split].
  - apply Hline. now exists "ConnectionError".
  - apply Hend. reflexivity.
  - apply Hquiet. intros name Hname. discriminate Hname.
Defined.

Lemma kelkoo_build_failures_witness :
  kelkoo_build_final_dataframe env_rate_fails initial_world
  = (inl (Exception "KeyError"), initial_world)
  /\ kelkoo_build_final_dataframe env_kelkoo_500 initial_world
     = (inl (SystemExit None),
        {| stdout := [kelkoo_failure_line]; gsheet_calls := [] |})
  /\ kelkoo_build_final_dataframe env_kelkoo_no_data initial_world
     = (inr None, initial_world).
Proof.
  destruct (kelkoo_build_failures env_rate_fails initial_world) as (Hrate & _).
  destruct (kelkoo_build_failures env_kelkoo_500 initial_world)
    as (_ & Hstatus & _).
  destruct (kelkoo_build_failures env_kelkoo_no_data initial_world)
    as (_ & _ & Hnone).
  split; [| split].
  - apply Hrate. reflexivity.
  - apply (Hstatus (127 # 100)%Q 500 "Internal Server Error");
      [reflexivity | reflexivity | discriminate].
  - apply (Hnone (127 # 100)%Q); reflexivity.
Defined.

Lemma keyed_rows_are_represented_witness :
  exists o,
    In o (kelkoo_format_and_group (127 # 100)%Q [json_row (Some "Computer")])
    /\ date o = "2024-01-01" /\ device o = "desktop".
Proof.
  destruct (proj2 keyed_rows_are_represented (127 # 100)%Q
              [json_row (Some "Computer")] (json_row (Some "Computer"))
              "Computer" (or_introl eq_refl) eq_refl)
    as (o & Ho & Hdate & Hdev).
  exists o. split; [exact Ho |]. split; [exact Hdate | exact Hdev].
Defined.

Lemma criteo_build_from_reports_witness :
  criteo_build_final_dataframe env_ok initial_world
  = (inr (Some [acme_out]), initial_world).
Proof.
  destruct (@criteo_build_from_reports env_ok initial_world "token"
              "USD" "GBP" "EUR" [acme_csv] [] []
              eq_refl eq_refl eq_refl eq_refl eq_refl eq_refl eq_refl)
    as (Hrun & _).
  rewrite Hrun. vm_compute. reflexivity.
Defined.
